(** * notion_to_md: the block-tree conversion engine

    A shallow embedding of [src/notion_to_md.py] (class [NotionToMarkdown]):
    the block renderer [block_to_markdown], the synced-block resolver
    [handle_synced_block], the tree assembler [to_markdown_string], the tree
    builder [blocks_to_markdown] and the entry point [page_to_markdown].

    Conventions of the embedding.
    - A Python [str] is a [string] read as a sequence of code points below 256.
    - A Python [int] is a [Z].
    - A dictionary that the code only reads ([block], a rich-text span, a
      payload) is a record with one field per key the code looks up; a key
      that may be missing is an [option] field, [d.get(k, v)] is [default],
      and [d[k]] on a missing key raises [KeyError].
    - [Dict[str, str]] (the document map) is [gmap string string].
    - An exception is a [Raise] in the [result] type; the calls to the
      collaborators (block fetching, logging, custom transformers, image
      encoding) are recorded in a trace that the monad [M] threads.
    - The two recursive methods, [blocks_to_markdown] and
      [to_markdown_string], take the number of nested calls of themselves
      that the interpreter still allows; a call made with none left raises
      [RecursionError]. *)

From stdpp Require Import gmap strings list.
From Stdlib Require Import ZArith.

#[local] Set Warnings "-register-all".
#[local] Open Scope string_scope.
#[local] Open Scope list_scope.
#[local] Open Scope Z_scope.

(** ** Python strings *)

Module Py.

Definition nl : string := String (Ascii.ascii_of_nat 10) "".

(** [str.isspace] on one code point below 256:
    TAB LF VT FF CR, FS GS RS US, SPACE, NEL, NBSP. *)
Definition isspace (c : Ascii.ascii) : bool :=
  let n := Ascii.nat_of_ascii c in
  ((9 <=? n) && (n <=? 13))%nat || ((28 <=? n) && (n <=? 32))%nat
  || (n =? 133)%nat || (n =? 160)%nat.

(** [s.lstrip()] *)
Fixpoint lstrip (s : string) : string :=
  match s with
  | "" => ""
  | String c s' => if isspace c then lstrip s' else s
  end.

(** [s.rstrip()] *)
Fixpoint rstrip (s : string) : string :=
  match s with
  | "" => ""
  | String c s' =>
      match rstrip s' with
      | "" => if isspace c then "" else String c ""
      | r => String c r
      end
  end.

(** [s.strip()] *)
Definition strip (s : string) : string := rstrip (lstrip s).

(** [s.split(sep)] for a one-character separator: never the empty list. *)
Fixpoint split (sep : Ascii.ascii) (s : string) : list string :=
  match s with
  | "" => [""]
  | String c s' =>
      if Ascii.eqb c sep then "" :: split sep s'
      else match split sep s' with
           | [] => [String c ""]
           | l :: ls => String c l :: ls
           end
  end.

(** [sep.join(parts)] *)
Fixpoint join (sep : string) (parts : list string) : string :=
  match parts with
  | [] => ""
  | [p] => p
  | p :: ps => p +:+ sep +:+ join sep ps
  end.

(** [x in [a, b, ...]] on strings *)
Definition mem (x : string) (l : list string) : bool :=
  existsb (String.eqb x) l.

(** Truth value of a string: non-empty. *)
Definition nonempty (s : string) : bool := negb (String.eqb s "").

(** [a or b] on strings *)
Definition or_str (a b : string) : string := if nonempty a then a else b.

End Py.

(** ** Exceptions *)

Inductive exn :=
| ValueError (msg : string)
| KeyError (key : string)
| TypeError (msg : string)
| AttributeError (name : string)     (* the object has no attribute of that name *)
| CollaboratorError (msg : string)   (* raised by a collaborator: fetch, transformer, image *)
| RecursionError.                     (* the interpreter's recursion limit *)

Inductive result (A : Type) :=
| Ok (a : A)
| Raise (e : exn).
Arguments Ok {A} a.
Arguments Raise {A} e.

#[global] Instance result_ret : MRet result := fun A a => Ok a.
#[global] Instance result_bind : MBind result :=
  fun A B f r => match r with Ok a => f a | Raise e => Raise e end.

(** [d[k]]: the value under a key that may be missing. *)
Definition item {A} (k : string) (o : option A) : result A :=
  match o with
  | Some a => Ok a
  | None => Raise (KeyError k)
  end.

Definition is_ok {A} (r : result A) : bool :=
  match r with Ok _ => true | Raise _ => false end.

(** ** Data model: the blocks the fetch collaborator returns *)

(** Modelled from the spec: the type declarations of [utils/types.py] are not
    among the sources; the records follow section 3 of the specification and
    the keys the converter reads. *)
Record Annotations := {
  a_bold : bool;
  a_italic : bool;
  a_strikethrough : bool;
  a_underline : bool;
  a_code : bool
}.

Definition no_annotations : Annotations :=
  {| a_bold := false; a_italic := false; a_strikethrough := false;
     a_underline := false; a_code := false |}.

Record EquationObj := { eq_expression : option string }.

(** A rich-text span. *)
Record RichText := {
  rt_type : string;                       (* content["type"] *)
  rt_equation : option EquationObj;       (* content["equation"] *)
  rt_plain_text : option string;          (* content.get("plain_text", "") *)
  rt_annotations : option Annotations;    (* content.get("annotations", {}) *)
  rt_href : option string                 (* content.get("href") *)
}.

Record UrlObj := { u_url : option string }.

Record SyncedFrom := { sf_block_id : option string }.

Record TableRow := { r_cells : option (list (list RichText)) }.

(** The dictionary stored under the key named by the block's type. *)
Record Payload := {
  p_rich_text : option (list RichText);
  p_language : option string;
  p_expression : option string;
  p_caption : option (list RichText);
  p_type : option string;
  p_file : option UrlObj;
  p_external : option UrlObj;
  p_url : option string;
  p_rows : option (list TableRow);
  p_title : option string;
  p_synced_from : option SyncedFrom
}.

Definition empty_payload : Payload :=
  {| p_rich_text := None; p_language := None; p_expression := None;
     p_caption := None; p_type := None; p_file := None; p_external := None;
     p_url := None; p_rows := None; p_title := None; p_synced_from := None |}.

Record Block := {
  b_id : option string;          (* block["id"] *)
  b_type : option string;        (* block["type"]; None: the key is missing *)
  b_has_children : bool;         (* block.get("has_children") *)
  b_payload : option Payload     (* block.get(block["type"]) *)
}.

Record ConfigurationOptions := {
  separate_child_page : bool;
  convert_images_to_base64 : bool;
  parse_child_pages : bool
}.

Definition default_config : ConfigurationOptions :=
  {| separate_child_page := false; convert_images_to_base64 := false;
     parse_child_pages := true |}.

(** ** The formatter collaborator [utils.md] *)

Module md.

(** Modelled from the spec: [utils/md.py] is not among the sources; section 6
    of the specification describes it as pure functions from plain values to
    Markdown fragments, and the converter is parameterised by them. *)
Record formatter := {
  inline_equation : string -> string;
  link : string -> string -> string;
  code_block : string -> string -> string;
  equation : string -> string;
  divider : string;
  image : string -> string -> bool -> result string;
  table : list (list string) -> string;
  heading2 : string -> string;
  heading3 : string -> string;
  add_tab_space : string -> Z -> string;
  toggle : string -> string -> string
}.

(** The leading indentation of a node at a nesting level: [unit] once
    per level. *)
Fixpoint indentation (unit : string) (levels : nat) : string :=
  match levels with
  | O => ""
  | S levels' => unit +:+ indentation unit levels'
  end.

(** Modelled from the spec: [add_tab_space] is a function of [utils/md.py],
    which is not among the sources.  Sections 4.3 and 6: tab-space insertion,
    a leading indentation proportional to the nesting level; [unit] is the
    indentation of one level. *)
Definition add_tab_space_spec (unit : string) (text : string) (n : Z) : string :=
  indentation unit (Z.to_nat n) +:+ text.

End md.

(** ** Rendered nodes and the document map *)

(** What [block_to_markdown] hands back: a string on every path but the
    synced-block one, which returns the document map of [to_markdown_string]. *)
Inductive Fragment :=
| FStr (s : string)
| FDoc (m : gmap string string).

Inductive MdBlock := mkMdBlock {
  md_type : string;
  md_block_id : string;
  md_parent : Fragment;
  md_children : list MdBlock
}.

(** Truth value of a fragment ([block.get("parent")] in a condition). *)
Definition truthy (f : Fragment) : bool :=
  match f with
  | FStr s => Py.nonempty s
  | FDoc m => negb (bool_decide (m = ∅))
  end.

(** The formatters are specified over strings and a document key is a
    string: where [to_markdown_string] hands a node's fragment to a formatter
    or uses it as a key, a document map in that place is a type error.  (The
    tree builder never makes such a node: the only map it stores is the empty
    one of a synced block, which the own-fragment test skips.) *)
Definition as_str (f : Fragment) : result string :=
  match f with
  | FStr s => Ok s
  | FDoc _ => Raise (TypeError "str expected")
  end.

(** [md_output.get(key, "")] *)
Definition get_or_empty (md_output : gmap string string) (key : string) : string :=
  default "" (md_output !! key).

(** [md_output[key] = md_output.get(key, "")] *)
Definition touch (key : string) (md_output : gmap string string) : gmap string string :=
  <[key := get_or_empty md_output key]> md_output.

(** [md_output[key] += text] on a key that is present. *)
Definition append_to (key : string) (text : string) (md_output : gmap string string)
  : gmap string string :=
  <[key := get_or_empty md_output key +:+ text]> md_output.

(** [for key, value in md_str.items(): md_output[key] = md_output.get(key, "") + value] *)
Definition merge_items (md_output md_str : gmap string string) : gmap string string :=
  union_with (fun old value => Some (old +:+ value)) md_output md_str.

(** [md_output.update(md_str)]: every entry of [md_str] replaces the
    entry of the same key. *)
Definition update (md_output md_str : gmap string string) : gmap string string :=
  md_str ∪ md_output.

(** The reflow of the quote branch:
    ["\n".join(f"> {line}" if line.strip() else ">" for line in text.split("\n")).strip()] *)
Definition quote_line (line : string) : string :=
  if Py.nonempty (Py.strip line) then "> " +:+ line else ">".

Definition format_quote (text : string) : string :=
  Py.strip (Py.join Py.nl (map quote_line (Py.split (Ascii.ascii_of_nat 10) text))).

(** ** The tree assembler *)

Section Assembler.

Context (fmt : md.formatter) (config : ConfigurationOptions).

(** First half of the loop body of [to_markdown_string]: the node's own
    fragment. *)
Definition own_fragment (block : MdBlock) (page_identifier : string)
    (nesting_level : Z) (md_output : gmap string string)
  : result (gmap string string) :=
  if truthy (md_parent block)
     && negb (Py.mem (md_type block) ["toggle"; "child_page"])
  then
    text ← as_str (md_parent block);
    if negb (Py.mem (md_type block)
               ["to_do"; "bulleted_list_item"; "numbered_list_item"; "quote"])
    then
      Ok (append_to page_identifier
            (Py.nl +:+ md.add_tab_space fmt text nesting_level +:+ Py.nl +:+ Py.nl)
            (touch page_identifier md_output))
    else
      Ok (append_to page_identifier
            (md.add_tab_space fmt text nesting_level +:+ Py.nl)
            (touch page_identifier md_output))
  else Ok md_output.

(** The two tests that select which entry of a recursive result is
    appended to the current document. *)
Definition pick_entry (page_identifier : string) (md_str : gmap string string)
  : option string :=
  if negb (String.eqb page_identifier "parent")
     && bool_decide (is_Some (md_str !! "parent"))
  then Some "parent"
  else if bool_decide (is_Some (md_str !! page_identifier))
  then Some page_identifier
  else None.

(** Second half of the loop body, given the function [recur] that
    assembles this node's children under a document id and a nesting level. *)
Definition children_phase (block : MdBlock)
    (recur : string -> Z -> result (gmap string string))
    (page_identifier : string) (nesting_level : Z)
    (md_output : gmap string string)
  : result (gmap string string) :=
  match md_children block with
  | [] => Ok md_output
  | _ :: _ =>
    if Py.mem (md_type block) ["synced_block"; "column_list"; "column"] then
      md_str ← recur page_identifier 0;
      Ok (merge_items (touch page_identifier md_output) md_str)
    else if String.eqb (md_type block) "child_page" then
      child_page_title ← as_str (md_parent block);
      md_str ← recur child_page_title 0;
      if separate_child_page config then
        Ok (update md_output md_str)
      else
        let md_output := touch page_identifier md_output in
        match md_str !! child_page_title with
        | Some content =>
            Ok (append_to page_identifier
                  (Py.nl +:+ child_page_title +:+ Py.nl +:+ content) md_output)
        | None => Ok md_output
        end
    else if String.eqb (md_type block) "toggle" then
      toggle_children_md ← recur "parent" 0;
      summary ← as_str (md_parent block);
      Ok (append_to page_identifier
            (md.toggle fmt summary (get_or_empty toggle_children_md "parent"))
            (touch page_identifier md_output))
    else if String.eqb (md_type block) "quote" then
      md_str ← recur page_identifier nesting_level;
      let formatted_content := format_quote (get_or_empty md_str "parent") in
      let md_output := touch page_identifier md_output in
      let md_output :=
        match pick_entry page_identifier md_str with
        | Some _ => append_to page_identifier formatted_content md_output
        | None => md_output
        end in
      Ok (append_to page_identifier Py.nl md_output)
    else if negb (String.eqb (md_type block) "callout") then
      md_str ← recur page_identifier (nesting_level + 1);
      let md_output := touch page_identifier md_output in
      match pick_entry page_identifier md_str with
      | Some key => Ok (append_to page_identifier (get_or_empty md_str key) md_output)
      | None => Ok md_output
      end
    else Ok md_output
  end.

(** One iteration of the loop of [to_markdown_string]; [recur] is the
    method itself, as the nested calls of lines 237 to 274 reach it. *)
Definition process_block
    (recur : list MdBlock -> string -> Z -> result (gmap string string))
    (block : MdBlock) (page_identifier : string)
    (nesting_level : Z) (md_output : gmap string string)
  : result (gmap string string) :=
  md_output ← own_fragment block page_identifier nesting_level md_output;
  children_phase block (recur (md_children block))
    page_identifier nesting_level md_output.

(** The loop of [to_markdown_string], from an accumulated [md_output]. *)
Fixpoint assemble_from
    (recur : list MdBlock -> string -> Z -> result (gmap string string))
    (md_blocks : list MdBlock) (page_identifier : string)
    (nesting_level : Z) (md_output : gmap string string)
  : result (gmap string string) :=
  match md_blocks with
  | [] => Ok md_output
  | block :: rest =>
      match process_block recur block page_identifier nesting_level md_output with
      | Ok md_output' =>
          assemble_from recur rest page_identifier nesting_level md_output'
      | Raise e => Raise e
      end
  end.

(** [to_markdown_string(md_blocks, page_identifier, nesting_level)].
    [fuel] is the number of nested calls the interpreter still allows. *)
Fixpoint to_markdown_string (fuel : nat) (md_blocks : list MdBlock)
    (page_identifier : string) (nesting_level : Z)
  : result (gmap string string) :=
  match fuel with
  | O => Raise RecursionError
  | S fuel' =>
      assemble_from (to_markdown_string fuel') md_blocks
        page_identifier nesting_level ∅
  end.

End Assembler.

(** ** Collaborators and effects *)

(** The calls that leave the converter, in the order they are made. *)
Inductive event :=
| Fetch (block_id : string) (total_pages : option Z)   (* notion.get_block_children *)
| Warning (msg : string)                                (* self.logger.warning *)
| Transform (block_type : string)                       (* a custom transformer *)
| Image (alt url : string).                             (* md.image *)

(** A computation that may raise and that appends to the trace of calls. *)
Definition M (A : Type) : Type := list event -> result A * list event.

#[global] Instance M_ret : MRet M := fun A a tr => (Ok a, tr).
#[global] Instance M_bind : MBind M :=
  fun A B f m tr =>
    match m tr with
    | (Ok a, tr') => f a tr'
    | (Raise e, tr') => (Raise e, tr')
    end.

Definition lift {A} (r : result A) : M A := fun tr => (r, tr).
Definition raise {A} (e : exn) : M A := lift (Raise e).
Definition emit (ev : event) : M unit := fun tr => (Ok tt, (tr ++ [ev])%list).

(** What a custom transformer returns: [Union[str, bool, None]]. *)
Inductive TransformerResult :=
| RStr (s : string)
| RBool (b : bool)
| RNone.

Abbreviation CustomTransformer := (Block -> result TransformerResult).

(** The converter object: [self]. *)
Record NotionToMarkdown := {
  notion_client : string -> option Z -> result (list Block);
  config : ConfigurationOptions;
  custom_transformers : gmap string (option CustomTransformer)
}.

(** [__init__]: the default configuration and an empty registry.  The
    client is a function here, so the [ValueError] of a missing client has no
    counterpart. *)
Definition init (client : string -> option Z -> result (list Block))
    (cfg : option ConfigurationOptions) : NotionToMarkdown :=
  {| notion_client := client;
     config := default default_config cfg;
     custom_transformers := ∅ |}.

Definition set_custom_transformer (self : NotionToMarkdown) (block_type : string)
    (transformer : option CustomTransformer) : NotionToMarkdown :=
  {| notion_client := notion_client self;
     config := config self;
     custom_transformers := <[block_type := transformer]> (custom_transformers self) |}.

Definition VALID_BLOCK_TYPES : list string :=
  [ "paragraph"; "heading_1"; "heading_2"; "heading_3";
    "bulleted_list_item"; "numbered_list_item"; "quote";
    "to_do"; "toggle"; "code"; "image"; "video"; "file";
    "pdf"; "bookmark"; "callout"; "synced_block"; "table";
    "column_list"; "column"; "link_preview"; "link_to_page";
    "equation"; "divider"; "table_of_contents"; "child_page";
    "child_database"; "breadcrumb"; "template"; "unsupported";
    "audio"; "embed" ].

(** The types whose rich text [block_to_markdown] renders. *)
Definition TEXT_BLOCK_TYPES : list string :=
  [ "paragraph"; "heading_1"; "heading_2"; "heading_3";
    "bulleted_list_item"; "numbered_list_item"; "quote";
    "to_do"; "toggle"; "callout" ].

(** ** The block renderer *)

Section Renderer.

Context (fmt : md.formatter).

(** The body of the loop over [rich_text]: what one span adds.  For a
    span that is not an equation the code reads [plain_text] and
    [annotations] and then evaluates [self.annotate_plain_text] (line 86):
    the class defines no attribute of that name and has no base class, so
    the lookup raises, before the call and before the test of [href]. *)
Definition render_span (content : RichText) : result string :=
  if String.eqb (rt_type content) "equation" then
    eq ← item "equation" (rt_equation content);
    expression ← item "expression" (eq_expression eq);
    Ok (md.inline_equation fmt expression)
  else Raise (AttributeError "annotate_plain_text").

(** [for content in block_content: parsed_data += ...] *)
Fixpoint render_rich_text (block_content : list RichText) (parsed_data : string)
  : result string :=
  match block_content with
  | [] => Ok parsed_data
  | content :: rest =>
      text ← render_span content;
      render_rich_text rest (parsed_data +:+ text)
  end.

(** ["".join(t["plain_text"] for t in spans)] *)
Fixpoint plain_texts (spans : list RichText) : result string :=
  match spans with
  | [] => Ok ""
  | t :: rest =>
      s ← item "plain_text" (rt_plain_text t);
      r ← plain_texts rest;
      Ok (s +:+ r)
  end.

(** The rows of a table block as a grid of cell texts. *)
Fixpoint table_cells (cells : list (list RichText)) : result (list string) :=
  match cells with
  | [] => Ok []
  | cell :: rest =>
      cell_text ← plain_texts cell;
      r ← table_cells rest;
      Ok (cell_text :: r)
  end.

Fixpoint table_rows (rows : list TableRow) : result (list (list string)) :=
  match rows with
  | [] => Ok []
  | row :: rest =>
      cells ← table_cells (default [] (r_cells row));
      r ← table_rows rest;
      Ok (cells :: r)
  end.

Context (self : NotionToMarkdown).

(** [notion.get_block_children(self.notion_client, block_id, total_pages)] *)
Definition get_block_children (block_id : string) (total_pages : option Z)
  : M (list Block) :=
  _ ← emit (Fetch block_id total_pages);
  lift (notion_client self block_id total_pages).

(** A block as the fetch collaborator delivers it carries neither a
    ["parent"] nor a ["children"] key: read by [to_markdown_string], both
    [block.get] calls give [None], which its two tests treat like the empty
    string and the empty list; [block["type"]] is then never read. *)
Definition as_md_block (block : Block) : MdBlock :=
  mkMdBlock (default "" (b_type block)) (default "" (b_id block)) (FStr "") [].

(** [handle_synced_block(block, depth)].  The call of line 174 is no
    nested call of a running [to_markdown_string], and it makes none: no
    node of [as_md_block] has children.  Like the other calls that do not
    recurse it is taken to fit the interpreter's limit: it is given the
    budget [1] of the call it is. *)
Definition handle_synced_block (block : Block) (depth : Z) : M Fragment :=
  if 3 <? depth then
    _ ← emit (Warning "Synced block recursion depth exceeded");
    mret (FStr "")
  else
    let synced_from := p_synced_from (default empty_payload (b_payload block)) in
    match synced_from with
    | Some {| sf_block_id := Some block_id |} =>
        if Py.nonempty block_id then
          original_blocks ← get_block_children block_id None;
          md_str ← lift (to_markdown_string fmt (config self) 1
                           (map as_md_block original_blocks) "parent" (depth + 1));
          mret (FDoc md_str)
        else
          _ ← emit (Warning "Synced block has no source");
          mret (FStr "")
    | _ =>
        _ ← emit (Warning "Synced block has no source");
        mret (FStr "")
    end.

(** The part of [block_to_markdown] below the custom-transformer test. *)
Definition render_default (block : Block) (block_type : string) : M Fragment :=
  parsed_data ←
    (if Py.mem block_type TEXT_BLOCK_TYPES then
       lift (render_rich_text
               (default [] (p_rich_text (default empty_payload (b_payload block)))) "")
     else mret "");
  if String.eqb block_type "code" then
    p ← lift (item "code" (b_payload block));
    mret (FStr (md.code_block fmt parsed_data (default "" (p_language p))))
  else if String.eqb block_type "equation" then
    p ← lift (item "equation" (b_payload block));
    expression ← lift (item "expression" (p_expression p));
    mret (FStr (md.equation fmt expression))
  else if String.eqb block_type "divider" then
    mret (FStr (md.divider fmt))
  else if String.eqb block_type "image" then
    p ← lift (item "image" (b_payload block));
    caption ← lift (plain_texts (default [] (p_caption p)));
    kind ← lift (item "type" (p_type p));
    url ← lift (if String.eqb kind "file"
                then f ← item "file" (p_file p); item "url" (u_url f)
                else e ← item "external" (p_external p); item "url" (u_url e));
    _ ← emit (Image (Py.or_str caption "image") url);
    s ← lift (md.image fmt (Py.or_str caption "image") url
                (convert_images_to_base64 (config self)));
    mret (FStr s)
  else if String.eqb block_type "table" then
    table_rows ← lift (table_rows
                         (default [] (p_rows (default empty_payload (b_payload block)))));
    mret (FStr (md.table fmt table_rows))
  else if String.eqb block_type "child_page" then
    if parse_child_pages (config self) then
      p ← lift (item "child_page" (b_payload block));
      let title := default "" (p_title p) in
      mret (FStr (if negb (separate_child_page (config self))
                  then md.heading2 fmt title else title))
    else mret (FStr parsed_data)
  else if String.eqb block_type "synced_block" then
    handle_synced_block block 0
  else if String.eqb block_type "child_database" then
    if negb (parse_child_pages (config self)) then mret (FStr "")
    else
      p ← lift (item "child_database" (b_payload block));
      mret (FStr (md.heading3 fmt (default "Child Database" (p_title p))))
  else if String.eqb block_type "table_of_contents" then
    mret (FStr (md.divider fmt))
  else if String.eqb block_type "audio" then
    audio_block ← lift (item "audio" (b_payload block));
    caption ← lift (plain_texts (default [] (p_caption audio_block)));
    let url := default "" (u_url (default {| u_url := None |} (p_file audio_block))) in
    mret (FStr (md.link fmt (Py.or_str caption "audio") url))
  else if String.eqb block_type "embed" then
    embed_block ← lift (item "embed" (b_payload block));
    caption ← lift (plain_texts (default [] (p_caption embed_block)));
    mret (FStr (md.link fmt (Py.or_str caption "embed") (default "" (p_url embed_block))))
  else if String.eqb block_type "link_preview" then
    preview_block ← lift (item "link_preview" (b_payload block));
    mret (FStr (md.link fmt "link_preview" (default "" (p_url preview_block))))
  else if String.eqb block_type "breadcrumb" then
    mret (FStr (md.divider fmt))
  else mret (FStr parsed_data).

Definition block_to_markdown (block : Block) : M Fragment :=
  match b_type block with
  | None => mret (FStr "")
  | Some block_type =>
      if negb (Py.mem block_type VALID_BLOCK_TYPES) then
        raise (ValueError ("Invalid block type: " +:+ block_type))
      else
        match custom_transformers self !! block_type with
        | Some (Some transformer) =>
            _ ← emit (Transform block_type);
            result ← lift (transformer block);
            match result with
            | RStr s => mret (FStr s)
            | _ => mret (FStr "")
            end
        | _ => render_default block block_type
        end
  end.

End Renderer.

(** ** The tree builder *)

Section Builder.

Context (fmt : md.formatter) (self : NotionToMarkdown).

(** [md_blocks or []].  The list is a mutable object: when [md_blocks] is a
    non-empty list the name stays bound to the caller's object, and the
    flag says so; when it is [None] or the empty list, [or] yields the
    second operand, a new list object that the caller does not hold. *)
Definition or_new (md_blocks : option (list MdBlock)) : list MdBlock * bool :=
  match md_blocks with
  | Some (b :: l) => (b :: l, true)
  | _ => ([], false)
  end.

(** The block id whose children are fetched. *)
Definition fetch_target (block : Block) (ty : string) : result string :=
  if String.eqb ty "synced_block" then
    p ← item "synced_block" (b_payload block);
    match p_synced_from p with
    | Some synced_from => item "block_id" (sf_block_id synced_from)
    | None => item "id" (b_id block)
    end
  else item "id" (b_id block).

(** Whether the loop skips the block. *)
Definition skipped (ty : string) : bool :=
  String.eqb ty "unsupported"
  || (String.eqb ty "child_page" && negb (parse_child_pages (config self))).

(** The dictionary literal appended to [md_blocks]; its [children] list is
    a new, empty list object. *)
Definition new_node (block : Block) (ty : string) : M MdBlock :=
  block_id ← lift (item "id" (b_id block));
  parent ← block_to_markdown fmt self block;
  mret (mkMdBlock ty block_id parent []).

(** One iteration of the loop of [blocks_to_markdown] for a block whose
    ["type"] is [ty]; [recur] is the method itself.  The recursive call
    receives the [children] list of the node just appended and its return
    value is dropped: the node sees the nodes built from the fetched
    children only if the callee appended them to that very object. *)
Definition build_typed_block
    (recur : option (list Block) -> option Z -> option (list MdBlock)
             -> M (list MdBlock * bool))
    (total_pages : option Z) (block : Block) (ty : string)
    (md_blocks : list MdBlock)
  : M (list MdBlock) :=
  if skipped ty then mret md_blocks
  else if b_has_children block then
    block_id ← lift (fetch_target block ty);
    child_blocks ← get_block_children self block_id total_pages;
    node ← new_node block ty;
    if negb (bool_decide (is_Some (custom_transformers self !! ty))) then
      '(built, same) ← recur (Some child_blocks) total_pages (Some (md_children node));
      let children := if (same : bool) then built else md_children node in
      mret (md_blocks ++ [mkMdBlock (md_type node) (md_block_id node)
                                    (md_parent node) children])
    else mret (md_blocks ++ [node])
  else
    node ← new_node block ty;
    mret (md_blocks ++ [node]).

(** One iteration of the loop: [block["type"]] is read first. *)
Definition build_block
    (recur : option (list Block) -> option Z -> option (list MdBlock)
             -> M (list MdBlock * bool))
    (total_pages : option Z) (block : Block) (md_blocks : list MdBlock)
  : M (list MdBlock) :=
  ty ← lift (item "type" (b_type block));
  build_typed_block recur total_pages block ty md_blocks.

Fixpoint build_loop
    (recur : option (list Block) -> option Z -> option (list MdBlock)
             -> M (list MdBlock * bool))
    (total_pages : option Z) (blocks : list Block) (md_blocks : list MdBlock)
  : M (list MdBlock) :=
  match blocks with
  | [] => mret md_blocks
  | block :: rest =>
      md_blocks ← build_block recur total_pages block md_blocks;
      build_loop recur total_pages rest md_blocks
  end.

(** [blocks_to_markdown(blocks, total_pages, md_blocks)].  [fuel] is the
    number of nested calls the interpreter still allows.  The result is
    the returned list and whether it is the object passed as [md_blocks]. *)
Fixpoint blocks_to_markdown (fuel : nat) (blocks : option (list Block))
    (total_pages : option Z) (md_blocks : option (list MdBlock))
  : M (list MdBlock * bool) :=
  match fuel with
  | O => raise RecursionError
  | S fuel' =>
      match blocks with
      | None | Some [] => mret (or_new md_blocks)
      | Some blocks =>
          let md_blocks := or_new md_blocks in
          r ← build_loop (blocks_to_markdown fuel') total_pages blocks md_blocks.1;
          mret (r, md_blocks.2)
      end
  end.

(** [total_pages] reaches the fetch of the page's own children only: the
    call [self.blocks_to_markdown(blocks)] leaves the parameter at its
    default [None]. *)
Definition page_to_markdown (fuel : nat) (page_id : string) (total_pages : option Z)
  : M (list MdBlock) :=
  blocks ← get_block_children self page_id total_pages;
  '(md_blocks, _) ← blocks_to_markdown fuel (Some blocks) None None;
  mret md_blocks.

End Builder.

(** ** Concrete collaborators and inputs for the examples *)

Module Example.

Definition tab : string := String (Ascii.ascii_of_nat 9) "".

(** Modelled from the spec: [utils/md.py] is not among the sources; a
    formatter in the sense of section 6, with the usual Markdown of each
    primitive (the horizontal rule is ["---"], indentation is one tab per
    nesting level). *)
Definition plain_md : md.formatter :=
  {| md.inline_equation := fun e => "$" +:+ e +:+ "$";
     md.link := fun t href => "[" +:+ t +:+ "](" +:+ href +:+ ")";
     md.code_block := fun t lang =>
       "```" +:+ lang +:+ Py.nl +:+ t +:+ Py.nl +:+ "```";
     md.equation := fun e => "$$" +:+ Py.nl +:+ e +:+ Py.nl +:+ "$$";
     md.divider := "---";
     md.image := fun alt url _ => Ok ("![" +:+ alt +:+ "](" +:+ url +:+ ")");
     md.table := fun rows => Py.join Py.nl (map (fun r => "| " +:+ Py.join " | " r +:+ " |") rows);
     md.heading2 := fun t => "## " +:+ t;
     md.heading3 := fun t => "### " +:+ t;
     md.add_tab_space := md.add_tab_space_spec tab;
     md.toggle := fun summary children =>
       "<details><summary>" +:+ summary +:+ "</summary>" +:+ children +:+ "</details>" |}.

(** A fetch collaborator that serves a fixed table of children. *)
Definition client (pages : list (string * list Block))
  : string -> option Z -> result (list Block) :=
  fun block_id _ =>
    match list_find (fun p => String.eqb (fst p) block_id) pages with
    | Some (_, (_, children)) => Ok children
    | None => Raise (CollaboratorError "object not found")
    end.

Definition text_span (s : string) : RichText :=
  {| rt_type := "text"; rt_equation := None; rt_plain_text := Some s;
     rt_annotations := Some no_annotations; rt_href := None |}.

(** A span that holds an inline equation. *)
Definition math_span (expression : string) : RichText :=
  {| rt_type := "equation";
     rt_equation := Some {| eq_expression := Some expression |};
     rt_plain_text := Some expression;
     rt_annotations := Some no_annotations; rt_href := None |}.

Definition text_payload (spans : list RichText) : Payload :=
  {| p_rich_text := Some spans; p_language := None; p_expression := None;
     p_caption := None; p_type := None; p_file := None; p_external := None;
     p_url := None; p_rows := None; p_title := None; p_synced_from := None |}.

Definition text_block (id ty : string) (spans : list RichText) : Block :=
  {| b_id := Some id; b_type := Some ty; b_has_children := false;
     b_payload := Some (text_payload spans) |}.

Definition hello : Block := text_block "b1" "paragraph" [text_span "Hello"].

Definition hello_world : Block :=
  text_block "b1" "paragraph" [text_span "Hello, "; text_span "world"].

Definition rule : Block :=
  {| b_id := Some "b2"; b_type := Some "divider"; b_has_children := false;
     b_payload := Some empty_payload |}.

(** A payload that has every key a renderer reads; its rich text is an
    inline equation. *)
Definition full_payload : Payload :=
  {| p_rich_text := Some [math_span "x"]; p_language := Some "python";
     p_expression := Some "x^2"; p_caption := Some [text_span "caption"];
     p_type := Some "file"; p_file := Some {| u_url := Some "https://f" |};
     p_external := Some {| u_url := Some "https://e" |};
     p_url := Some "https://u"; p_rows := Some [];
     p_title := Some "Title"; p_synced_from := None |}.

Definition block_of_type (ty : string) : Block :=
  {| b_id := Some "b"; b_type := Some ty; b_has_children := false;
     b_payload := Some full_payload |}.

(** A converter with no page behind it. *)
Definition bare : NotionToMarkdown := init (client []) None.

(** A transformer that ignores the block. *)
Definition const_transformer (s : string) : CustomTransformer :=
  fun _ => Ok (RStr s).

(** A synced block whose source reference is its own id. *)
Definition self_synced : Block :=
  {| b_id := Some "A"; b_type := Some "synced_block"; b_has_children := true;
     b_payload := Some
       {| p_rich_text := None; p_language := None; p_expression := None;
          p_caption := None; p_type := None; p_file := None; p_external := None;
          p_url := None; p_rows := None; p_title := None;
          p_synced_from := Some {| sf_block_id := Some "A" |} |} |}.

Definition leaf (ty text : string) : MdBlock := mkMdBlock ty "n" (FStr text) [].

Definition split_config : ConfigurationOptions :=
  {| separate_child_page := true; convert_images_to_base64 := false;
     parse_child_pages := true |}.

End Example.

(** ** Vocabulary of the properties *)

(** A style flag of the span is set. *)
Definition styled (a : Annotations) : bool :=
  a_bold a || a_italic a || a_strikethrough a || a_underline a || a_code a.

(** A span with no math-expression marker, no hyperlink and no active
    style flag. *)
Definition unstyled (content : RichText) : bool :=
  negb (String.eqb (rt_type content) "equation")
  && negb (Py.nonempty (default "" (rt_href content)))
  && negb (styled (default no_annotations (rt_annotations content))).

(** The concatenation of the spans' plain text. *)
Definition plain_concat (spans : list RichText) : string :=
  foldr (fun content acc => default "" (rt_plain_text content) +:+ acc) "" spans.

(** The rich text of a block. *)
Definition rich_text_of (block : Block) : list RichText :=
  default [] (p_rich_text (default empty_payload (b_payload block))).

(** The string a transformer's result is turned into. *)
Definition transformer_text (r : TransformerResult) : string :=
  match r with
  | RStr s => s
  | _ => ""
  end.

(** The blocks the loop of [blocks_to_markdown] passes over: type
    [unsupported], and [child_page] when child pages are not parsed. *)
Definition omitted (self : NotionToMarkdown) (block : Block) : bool :=
  match b_type block with
  | Some ty =>
      String.eqb ty "unsupported"
      || (String.eqb ty "child_page" && negb (parse_child_pages (config self)))
  | None => false
  end.

(** A property of every node of a tree of rendered nodes. *)
Fixpoint every_node (P : MdBlock -> bool) (node : MdBlock) : bool :=
  match node with
  | mkMdBlock ty bid parent children =>
      P (mkMdBlock ty bid parent children) && forallb (every_node P) children
  end.

(** The node is not of a type the builder omits. *)
Definition node_kept (self : NotionToMarkdown) (node : MdBlock) : bool :=
  negb (String.eqb (md_type node) "unsupported"
        || (String.eqb (md_type node) "child_page"
            && negb (parse_child_pages (config self)))).

(** The text of a document once a pass has returned ([None]: it raised, or
    the document has no entry). *)
Definition document (r : result (gmap string string)) (key : string) : option string :=
  match r with
  | Ok md_output => md_output !! key
  | Raise _ => None
  end.

(** What the own-fragment phase appends for a node of type [ty] whose
    fragment is [text]: one indented line for the list-like types, the
    indented text between a newline and two newlines for the others. *)
Definition own_layout (fmt : md.formatter) (ty text : string) (nesting_level : Z) : string :=
  if Py.mem ty ["to_do"; "bulleted_list_item"; "numbered_list_item"; "quote"]
  then md.add_tab_space fmt text nesting_level +:+ Py.nl
  else Py.nl +:+ md.add_tab_space fmt text nesting_level +:+ Py.nl +:+ Py.nl.

(** A page converted end to end, as a caller chains the two methods:
    [to_markdown_string(page_to_markdown(page_id))]. *)
Definition convert_page (fmt : md.formatter) (self : NotionToMarkdown) (fuel : nat)
    (page_id : string) : result (gmap string string) :=
  match (page_to_markdown fmt self fuel page_id None []).1 with
  | Ok md_blocks => to_markdown_string fmt (config self) fuel md_blocks "parent" 0
  | Raise e => Raise e
  end.

(** Every document of [old] is still there in [new], with text added at
    the end only. *)
Definition extends (old new : gmap string string) : Prop :=
  forall k s, old !! k = Some s -> exists suffix, new !! k = Some (s +:+ suffix).

(** A pass over [block] writes to no document but the current one. *)
Definition own_document_only (fmt : md.formatter) (config : ConfigurationOptions)
    (recur : list MdBlock -> string -> Z -> result (gmap string string))
    (block : MdBlock) : Prop :=
  forall pid lvl md_output r,
    process_block fmt config recur block pid lvl md_output = Ok r ->
    forall k, k <> pid -> r !! k = md_output !! k.

(** A recursive call returns the current document at most. *)
Definition current_document_only
    (recur : list MdBlock -> string -> Z -> result (gmap string string)) : Prop :=
  forall md_blocks pid lvl r,
    recur md_blocks pid lvl = Ok r -> forall k, k <> pid -> r !! k = None.



(** [md_output] with [entry], when there is one, added at the end of the
    document [pid]. *)
Definition add_text (pid : string) (entry : option string)
    (md_output : gmap string string) : gmap string string :=
  match entry with
  | Some text => <[pid := get_or_empty md_output pid +:+ text]> md_output
  | None => md_output
  end.

(** A step that only adds text at the end of the document [pid], the same
    text whatever the map it starts from, or raises whatever that map. *)
Definition appends (pid : string)
    (step : gmap string string -> result (gmap string string)) : Prop :=
  exists entry : result (option string),
    forall md_output, step md_output = (o ← entry; Ok (add_text pid o md_output)).



(** Every node that [recur] returns is of a kept type, at every depth,
    provided the nodes it was handed are. *)
Definition builds_kept (self : NotionToMarkdown)
    (recur : option (list Block) -> option Z -> option (list MdBlock)
             -> M (list MdBlock * bool)) : Prop :=
  forall blocks total_pages md_blocks tr nodes same tr',
    recur blocks total_pages md_blocks tr = (Ok (nodes, same), tr') ->
    forallb (every_node (node_kept self)) (default [] md_blocks) = true ->
    forallb (every_node (node_kept self)) nodes = true.
(** ** Vocabulary of the further properties *)

(** The synced block names no source: [synced_from] is missing, or its
    [block_id] is missing or empty. *)
Definition no_source (block : Block) : bool :=
  match p_synced_from (default empty_payload (b_payload block)) with
  | Some {| sf_block_id := Some block_id |} => negb (Py.nonempty block_id)
  | _ => true
  end.

(** The blocks of a list that the tree builder does not pass over. *)
Definition kept_blocks (self : NotionToMarkdown) (blocks : list Block) : list Block :=
  List.filter (fun block => negb (omitted self block)) blocks.

(** The fragment of the node is a string. *)
Definition str_fragment (node : MdBlock) : bool :=
  match md_parent node with
  | FStr _ => true
  | FDoc _ => false
  end.

(** The fragment of the node is a string or the empty document map. *)
Definition plain_fragment (node : MdBlock) : bool :=
  match md_parent node with
  | FStr _ => true
  | FDoc m => bool_decide (m = ∅)
  end.

(** The nested calls of [to_markdown_string] that a node needs below the
    call that meets it: none for a node without children, one more than its
    children need otherwise. *)
Fixpoint nesting (node : MdBlock) : nat :=
  match node with
  | mkMdBlock _ _ _ children =>
      foldr (fun child deepest => Nat.max (S (nesting child)) deepest) O children
  end.

(** The nested calls that the nodes of a list need, at most. *)
Definition nesting_of (nodes : list MdBlock) : nat :=
  foldr (fun node deepest => Nat.max (nesting node) deepest) O nodes.

(** What a node without children adds to the current document: the layout
    of its fragment, or nothing for an empty fragment, a toggle or a child
    page. *)
Definition leaf_text (fmt : md.formatter) (nesting_level : Z) (node : MdBlock) : string :=
  match md_parent node with
  | FStr text =>
      if Py.nonempty text && negb (Py.mem (md_type node) ["toggle"; "child_page"])
      then own_layout fmt (md_type node) text nesting_level
      else ""
  | FDoc _ => ""
  end.

(** The text of a list of nodes without children, in order. *)
Definition leaves_text (fmt : md.formatter) (nesting_level : Z) (nodes : list MdBlock)
  : string :=
  foldr (fun node acc => leaf_text fmt nesting_level node +:+ acc) "" nodes.

(** A fetch with the given [total_pages] or with none (the default of the
    parameter); any call that is not a fetch. *)
Definition fetches_with (total_pages : option Z) (ev : event) : Prop :=
  match ev with
  | Fetch _ n => n = total_pages \/ n = None
  | _ => True
  end.

(** A computation only adds calls to the trace, each of them of kind [P]. *)
Definition emits {A} (P : event -> Prop) (m : M A) : Prop :=
  forall tr r tr', m tr = (r, tr') -> exists evs, tr' = tr ++ evs /\ Forall P evs.

(** Further inputs for the examples. *)
Module Sample.

(** A toggle that declares children; its summary is an inline equation. *)
Definition toggle_block : Block :=
  {| b_id := Some "t1"; b_type := Some "toggle"; b_has_children := true;
     b_payload := Some (Example.text_payload [Example.math_span "x"]) |}.

(** A code block. *)
Definition snippet : Block :=
  {| b_id := Some "b3"; b_type := Some "code"; b_has_children := false;
     b_payload := Some Example.full_payload |}.

(** A page whose toggle has a code block as its child. *)
Definition site : NotionToMarkdown :=
  init (Example.client [("root", [toggle_block; Example.rule]);
                        ("t1", [snippet])]) None.

(** A list item that holds a child page. *)
Definition item_with_page : MdBlock :=
  mkMdBlock "bulleted_list_item" "i" (FStr "- item")
    [mkMdBlock "child_page" "c" (FStr "Child") [Example.leaf "paragraph" "x"]].

(** A synced copy "B" of the block "S", on a site that serves the children
    of "S". *)
Definition synced_copy : Block :=
  {| b_id := Some "B"; b_type := Some "synced_block"; b_has_children := true;
     b_payload := Some
       {| p_rich_text := None; p_language := None; p_expression := None;
          p_caption := None; p_type := None; p_file := None; p_external := None;
          p_url := None; p_rows := None; p_title := None;
          p_synced_from := Some {| sf_block_id := Some "S" |} |} |}.

Definition synced_site : NotionToMarkdown :=
  init (Example.client [("S", [Example.rule])]) None.

End Sample.

(** * Properties *)

#[local] Arguments String.append : simpl nomatch.

(** ** Strings *)

Lemma append_assoc (a b c : string) : (a +:+ b) +:+ c = a +:+ (b +:+ c).
Proof. induction a as [|x a IH]; simpl; [reflexivity | f_equal; exact IH]. Qed.

Lemma append_empty_r (a : string) : a +:+ "" = a.
Proof. induction a as [|x a IH]; simpl; [reflexivity | f_equal; exact IH]. Qed.

Lemma length_append (a b : string) :
  String.length (a +:+ b) = (String.length a + String.length b)%nat.
Proof. induction a as [|x a IH]; simpl; [reflexivity | now rewrite IH]. Qed.

Lemma indentation_length (unit : string) (levels : nat) :
  String.length (md.indentation unit levels) = (levels * String.length unit)%nat.
Proof.
  induction levels as [| n IH]; [reflexivity |].
  cbn [md.indentation]. rewrite length_append, IH. reflexivity.
Qed.

Lemma mem_true (x : string) (l : list string) : Py.mem x l = true <-> x ∈ l.
Proof.
  unfold Py.mem. rewrite existsb_exists. split.
  - intros (y & Hy & Heq). apply String.eqb_eq in Heq. subst y.
    now apply list_elem_of_In.
  - intros H. exists x. split; [now apply list_elem_of_In | apply String.eqb_refl].
Qed.

(** ** The monad of the converter *)

Lemma bind_lift_ok {A B} (a : A) (f : A -> M B) (tr : list event) :
  (lift (Ok a) ≫= f) tr = f a tr.
Proof. reflexivity. Qed.

Lemma bind_raise {A B} (r : M A) (f : A -> M B) (tr tr' : list event) (e : exn) :
  r tr = (Raise e, tr') -> (r ≫= f) tr = (Raise e, tr').
Proof. intros H. unfold mbind, M_bind. now rewrite H. Qed.

Lemma bind_ok {A B} (r : M A) (f : A -> M B) (tr tr' : list event) (a : A) :
  r tr = (Ok a, tr') -> (r ≫= f) tr = f a tr'.
Proof. intros H. unfold mbind, M_bind. now rewrite H. Qed.

(** ** The inline text renderer *)

Section InlineText.

Context (fmt : md.formatter).

(** A span that is not an equation: the lookup of line 86 raises. *)
Lemma render_span_text (content : RichText) :
  String.eqb (rt_type content) "equation" = false ->
  render_span fmt content = Raise (AttributeError "annotate_plain_text").
Proof. unfold render_span. now intros ->. Qed.

Lemma render_span_unstyled (content : RichText) :
  unstyled content = true ->
  render_span fmt content = Raise (AttributeError "annotate_plain_text").
Proof.
  unfold unstyled. intros H.
  apply andb_prop in H as [H _]. apply andb_prop in H as [He _].
  apply negb_true_iff in He. now apply render_span_text.
Qed.

Lemma render_rich_text_unstyled (spans : list RichText) (parsed_data : string) :
  forallb unstyled spans = true ->
  render_rich_text fmt spans parsed_data
  = match spans with
    | [] => Ok parsed_data
    | _ :: _ => Raise (AttributeError "annotate_plain_text")
    end.
Proof.
  destruct spans as [| content rest]; [reflexivity |].
  cbn [forallb render_rich_text]. intros H. apply andb_prop in H as [Hc _].
  now rewrite (render_span_unstyled content Hc).
Qed.

End InlineText.


(** ** The block renderer *)

Section BlockRenderer.

Context (fmt : md.formatter) (self : NotionToMarkdown).

Lemma text_type_valid (ty : string) :
  Py.mem ty TEXT_BLOCK_TYPES = true -> Py.mem ty VALID_BLOCK_TYPES = true.
Proof.
  intros H. apply mem_true in H. unfold TEXT_BLOCK_TYPES in H.
  repeat (apply elem_of_cons in H as [-> | H]; [reflexivity |]).
  now apply elem_of_nil in H.
Qed.

Lemma render_default_text (block : Block) (ty : string) (tr : list event) :
  Py.mem ty TEXT_BLOCK_TYPES = true ->
  forallb unstyled (rich_text_of block) = true ->
  render_default fmt self block ty tr
  = (match rich_text_of block with
     | [] => Ok (FStr "")
     | _ :: _ => Raise (AttributeError "annotate_plain_text")
     end, tr).
Proof.
  intros Hty Hspans. unfold render_default. rewrite Hty.
  fold (rich_text_of block).
  rewrite (render_rich_text_unstyled fmt _ "" Hspans).
  destruct (rich_text_of block) as [| content rest]; [| reflexivity].
  apply mem_true in Hty. unfold TEXT_BLOCK_TYPES in Hty.
  repeat (apply elem_of_cons in Hty as [-> | Hty]; [reflexivity |]).
  now apply elem_of_nil in Hty.
Qed.

Lemma block_to_markdown_invalid (block : Block) (ty : string) (tr : list event) :
  b_type block = Some ty ->
  Py.mem ty VALID_BLOCK_TYPES = false ->
  block_to_markdown fmt self block tr
  = (Raise (ValueError ("Invalid block type: " +:+ ty)), tr).
Proof. intros Hty Hv. unfold block_to_markdown. now rewrite Hty, Hv. Qed.

Lemma block_to_markdown_default (block : Block) (ty : string) :
  b_type block = Some ty ->
  Py.mem ty VALID_BLOCK_TYPES = true ->
  (forall f, custom_transformers self !! ty <> Some (Some f)) ->
  block_to_markdown fmt self block = render_default fmt self block ty.
Proof.
  intros Hty Hv Hreg. unfold block_to_markdown.
  rewrite Hty; cbv beta iota. rewrite Hv; cbn [negb]. destruct (custom_transformers self !! ty) as [[f|]|] eqn:E; try reflexivity.
  now destruct (Hreg f).
Qed.

Lemma block_to_markdown_transformer (block : Block) (ty : string)
    (transformer : CustomTransformer) (r : TransformerResult) (tr : list event) :
  b_type block = Some ty ->
  Py.mem ty VALID_BLOCK_TYPES = true ->
  custom_transformers self !! ty = Some (Some transformer) ->
  transformer block = Ok r ->
  block_to_markdown fmt self block tr
  = (Ok (FStr (transformer_text r)), tr ++ [Transform ty]).
Proof.
  intros Hty Hv Hreg Hr. unfold block_to_markdown.
  rewrite Hty; cbv beta iota. rewrite Hv; cbn [negb]. rewrite Hreg.
  unfold mbind, M_bind, emit, lift. rewrite Hr. now destruct r.
Qed.

End BlockRenderer.


(** ** The tree builder *)

Section TreeBuilder.

Context (fmt : md.formatter) (self : NotionToMarkdown).

Lemma skipped_valid (ty : string) :
  skipped self ty = true -> Py.mem ty VALID_BLOCK_TYPES = true.
Proof.
  unfold skipped. intros H. apply orb_prop in H as [H | H].
  - apply String.eqb_eq in H. now subst.
  - apply andb_prop in H as [H _]. apply String.eqb_eq in H. now subst.
Qed.

Lemma new_node_children (block : Block) (ty : string) (tr tr' : list event)
    (node : MdBlock) :
  new_node fmt self block ty tr = (Ok node, tr') ->
  md_type node = ty /\ md_children node = [].
Proof.
  unfold new_node, mbind, M_bind, lift, mret, M_ret.
  destruct (item "id" (b_id block)) as [id | e]; [| discriminate].
  destruct (block_to_markdown fmt self block tr) as [[parent | e] tr1];
    [| discriminate].
  intros [= <- <-]. now split.
Qed.

Lemma new_node_invalid (block : Block) (ty : string) (tr : list event) :
  b_type block = Some ty ->
  Py.mem ty VALID_BLOCK_TYPES = false ->
  exists e tr', new_node fmt self block ty tr = (Raise e, tr').
Proof.
  intros Hty Hv. unfold new_node, mbind, M_bind, lift.
  destruct (item "id" (b_id block)) as [id | e]; [| now eauto].
  rewrite (block_to_markdown_invalid fmt self block ty tr Hty Hv). eauto.
Qed.

Lemma build_block_typed recur (total_pages : option Z) (block : Block)
    (ty : string) (md_blocks : list MdBlock) (tr : list event) :
  b_type block = Some ty ->
  build_block fmt self recur total_pages block md_blocks tr
  = build_typed_block fmt self recur total_pages block ty md_blocks tr.
Proof. intros Hty. unfold build_block. now rewrite Hty. Qed.

Lemma build_block_invalid recur (total_pages : option Z) (block : Block)
    (ty : string) (md_blocks : list MdBlock) (tr : list event) :
  b_type block = Some ty ->
  Py.mem ty VALID_BLOCK_TYPES = false ->
  exists e tr', build_block fmt self recur total_pages block md_blocks tr = (Raise e, tr').
Proof.
  intros Hty Hv. rewrite (build_block_typed _ _ _ ty) by exact Hty.
  unfold build_typed_block.
  assert (Hs : skipped self ty = false).
  { destruct (skipped self ty) eqn:E; [| reflexivity].
    apply skipped_valid in E. congruence. }
  rewrite Hs.
  destruct (b_has_children block).
  - unfold mbind at 1, M_bind at 1, lift at 1.
    destruct (fetch_target block ty) as [block_id | e]; [| now eauto].
    unfold mbind at 1, M_bind at 1.
    destruct (get_block_children self block_id total_pages tr)
      as [[child_blocks | e] tr1]; [| now eauto].
    unfold mbind at 1, M_bind at 1.
    destruct (new_node_invalid block ty tr1 Hty Hv) as (e & tr2 & ->). eauto.
  - unfold mbind at 1, M_bind at 1.
    destruct (new_node_invalid block ty tr Hty Hv) as (e & tr2 & ->). eauto.
Qed.

Lemma build_loop_invalid recur (total_pages : option Z) (blocks : list Block)
    (block : Block) (ty : string) (md_blocks : list MdBlock) (tr : list event) :
  block ∈ blocks ->
  b_type block = Some ty ->
  Py.mem ty VALID_BLOCK_TYPES = false ->
  exists e tr', build_loop fmt self recur total_pages blocks md_blocks tr = (Raise e, tr').
Proof.
  intros Hin Hty Hv. revert md_blocks tr.
  induction blocks as [| b rest IH]; intros md_blocks tr.
  - now apply elem_of_nil in Hin.
  - cbn [build_loop]. unfold mbind, M_bind.
    apply elem_of_cons in Hin as [<- | Hin].
    + destruct (build_block_invalid recur total_pages block ty md_blocks tr Hty Hv)
        as (e & tr' & ->). eauto.
    + destruct (build_block fmt self recur total_pages b md_blocks tr)
        as [[md_blocks' | e] tr']; [| now eauto].
      now apply IH.
Qed.

Lemma blocks_to_markdown_invalid (fuel : nat) (total_pages : option Z)
    (blocks : list Block) (block : Block) (ty : string)
    (md_blocks : option (list MdBlock)) (tr : list event) :
  block ∈ blocks ->
  b_type block = Some ty ->
  Py.mem ty VALID_BLOCK_TYPES = false ->
  exists e tr',
    blocks_to_markdown fmt self fuel (Some blocks) total_pages md_blocks tr
    = (Raise e, tr').
Proof.
  intros Hin Hty Hv. destruct fuel as [| fuel]; [now eexists _, _ |].
  cbn [blocks_to_markdown].
  destruct blocks as [| b rest]; [now apply elem_of_nil in Hin |].
  unfold mbind, M_bind.
  destruct (build_loop_invalid (blocks_to_markdown fmt self fuel) total_pages
              (b :: rest) block ty (or_new md_blocks).1 tr Hin Hty Hv)
    as (e & tr' & ->).
  eauto.
Qed.

Lemma page_to_markdown_invalid (fuel : nat) (page_id : string)
    (total_pages : option Z) (blocks : list Block) (block : Block) (ty : string)
    (tr : list event) :
  notion_client self page_id total_pages = Ok blocks ->
  block ∈ blocks ->
  b_type block = Some ty ->
  Py.mem ty VALID_BLOCK_TYPES = false ->
  exists e tr', page_to_markdown fmt self fuel page_id total_pages tr = (Raise e, tr').
Proof.
  intros Hc Hin Hty Hv. unfold page_to_markdown, get_block_children.
  unfold mbind, M_bind, emit, lift. rewrite Hc.
  destruct (blocks_to_markdown_invalid fuel None blocks block ty None
              (tr ++ [Fetch page_id total_pages]) Hin Hty Hv) as (e & tr' & ->).
  eauto.
Qed.

(** The page whose first block has a type outside the enumeration: the
    error of [block_to_markdown] is the error of the conversion. *)
Lemma page_to_markdown_invalid_first (fuel : nat) (page_id : string)
    (total_pages : option Z) (block : Block) (rest : list Block) (ty id : string)
    (tr : list event) :
  notion_client self page_id total_pages = Ok (block :: rest) ->
  b_has_children block = false ->
  b_id block = Some id ->
  b_type block = Some ty ->
  Py.mem ty VALID_BLOCK_TYPES = false ->
  page_to_markdown fmt self (S fuel) page_id total_pages tr
  = (Raise (ValueError ("Invalid block type: " +:+ ty)),
     tr ++ [Fetch page_id total_pages]).
Proof.
  intros Hc Hleaf Hid Hty Hv. unfold page_to_markdown, get_block_children.
  unfold mbind at 1 2, M_bind at 1 2, emit, lift. rewrite Hc.
  apply bind_raise. cbn [blocks_to_markdown build_loop].
  apply bind_raise. apply bind_raise.
  rewrite (build_block_typed _ _ _ ty) by exact Hty.
  unfold build_typed_block.
  assert (Hs : skipped self ty = false).
  { destruct (skipped self ty) eqn:E; [| reflexivity].
    apply skipped_valid in E. congruence. }
  rewrite Hs, Hleaf. apply bind_raise.
  unfold new_node. rewrite Hid. cbn [item]. rewrite bind_lift_ok. apply bind_raise.
  now apply block_to_markdown_invalid.
Qed.

End TreeBuilder.


Section Pruning.

Context (fmt : md.formatter) (self : NotionToMarkdown).

Lemma build_block_omitted recur (total_pages : option Z) (block : Block)
    (md_blocks : list MdBlock) (tr : list event) :
  omitted self block = true ->
  build_block fmt self recur total_pages block md_blocks tr = (Ok md_blocks, tr).
Proof.
  unfold omitted. destruct (b_type block) as [ty |] eqn:Hty; [| discriminate].
  intros H. rewrite (build_block_typed _ _ _ _ _ ty) by exact Hty.
  unfold build_typed_block, skipped. now rewrite H.
Qed.

Lemma build_loop_filter recur (total_pages : option Z) (blocks : list Block)
    (md_blocks : list MdBlock) (tr : list event) :
  build_loop fmt self recur total_pages blocks md_blocks tr
  = build_loop fmt self recur total_pages
      (List.filter (fun b => negb (omitted self b)) blocks) md_blocks tr.
Proof.
  revert md_blocks tr. induction blocks as [| b rest IH]; intros md_blocks tr.
  - reflexivity.
  - cbn [List.filter build_loop]. destruct (omitted self b) eqn:E; cbn [negb].
    + unfold mbind, M_bind. rewrite build_block_omitted by exact E. apply IH.
    + cbn [build_loop]. unfold mbind, M_bind.
      destruct (build_block fmt self recur total_pages b md_blocks tr)
        as [[md_blocks' | e] tr']; [apply IH | reflexivity].
Qed.

Lemma blocks_to_markdown_filter (fuel : nat) (blocks : list Block)
    (total_pages : option Z) (md_blocks : option (list MdBlock)) (tr : list event) :
  blocks_to_markdown fmt self fuel (Some blocks) total_pages md_blocks tr
  = blocks_to_markdown fmt self fuel
      (Some (List.filter (fun b => negb (omitted self b)) blocks))
      total_pages md_blocks tr.
Proof.
  destruct fuel as [| fuel]; [reflexivity |]. cbn [blocks_to_markdown].
  destruct blocks as [| b rest]; [reflexivity |].
  unfold mbind at 1, M_bind at 1. rewrite build_loop_filter.
  destruct (List.filter _ (b :: rest)) as [| b' rest'] eqn:E.
  - cbn [build_loop]. unfold mret, M_ret. now destruct (or_new md_blocks).
  - reflexivity.
Qed.

Lemma forallb_snoc {A} (P : A -> bool) (l : list A) (x : A) :
  forallb P (l ++ [x]) = forallb P l && P x.
Proof. rewrite forallb_app. simpl. now rewrite andb_true_r. Qed.

Lemma build_block_kept recur (total_pages : option Z) (block : Block)
    (md_blocks md_blocks' : list MdBlock) (tr tr' : list event) :
  builds_kept self recur ->
  build_block fmt self recur total_pages block md_blocks tr = (Ok md_blocks', tr') ->
  forallb (every_node (node_kept self)) md_blocks = true ->
  forallb (every_node (node_kept self)) md_blocks' = true.
Proof.
  intros Hrec. destruct (b_type block) as [ty |] eqn:Hty;
    [| unfold build_block; rewrite Hty; discriminate].
  rewrite (build_block_typed _ _ _ _ _ ty) by exact Hty.
  unfold build_typed_block.
  destruct (skipped self ty) eqn:Hs; [now intros [= <- <-] |].
  assert (Hkept : forall id parent ch, node_kept self (mkMdBlock ty id parent ch) = true).
  { intros. unfold node_kept. cbn [md_type]. unfold skipped in Hs. now rewrite Hs. }
  destruct (b_has_children block).
  - unfold mbind at 1, M_bind at 1, lift at 1.
    destruct (fetch_target block ty) as [block_id | e]; [| discriminate].
    unfold mbind at 1, M_bind at 1.
    destruct (get_block_children self block_id total_pages tr)
      as [[child_blocks | e] tr1]; [| discriminate].
    unfold mbind at 1, M_bind at 1.
    destruct (new_node fmt self block ty tr1) as [[node | e] tr2] eqn:En;
      [| discriminate].
    destruct (new_node_children fmt self block ty tr1 tr2 node En) as [Hnty Hch].
    destruct node as [nty nid nparent nch]. cbn [md_type md_children] in *. subst.
    destruct (negb _).
    + unfold mbind, M_bind.
      destruct (recur (Some child_blocks) total_pages (Some []) tr2)
        as [[[built same] | e] tr3] eqn:Er; [| discriminate].
      intros [= <- <-] Hall. rewrite forallb_snoc, Hall. cbn [andb md_type md_block_id md_parent].
      cbn [every_node]. rewrite Hkept. cbn [andb].
      destruct same; [| reflexivity].
      now apply (Hrec _ _ _ _ _ _ _ Er).
    + intros [= <- <-] Hall. rewrite forallb_snoc, Hall. cbn [andb every_node forallb].
      now rewrite Hkept.
  - unfold mbind at 1, M_bind at 1.
    destruct (new_node fmt self block ty tr) as [[node | e] tr2] eqn:En;
      [| discriminate].
    destruct (new_node_children fmt self block ty tr tr2 node En) as [Hnty Hch].
    destruct node as [nty nid nparent nch]. cbn [md_type md_children] in *. subst.
    intros [= <- <-] Hall. rewrite forallb_snoc, Hall. cbn [andb every_node forallb].
    now rewrite Hkept.
Qed.

Lemma build_loop_kept recur (total_pages : option Z) (blocks : list Block)
    (md_blocks md_blocks' : list MdBlock) (tr tr' : list event) :
  builds_kept self recur ->
  build_loop fmt self recur total_pages blocks md_blocks tr = (Ok md_blocks', tr') ->
  forallb (every_node (node_kept self)) md_blocks = true ->
  forallb (every_node (node_kept self)) md_blocks' = true.
Proof.
  intros Hrec. revert md_blocks tr.
  induction blocks as [| b rest IH]; intros md_blocks tr.
  - now intros [= <- <-].
  - cbn [build_loop]. unfold mbind, M_bind.
    destruct (build_block fmt self recur total_pages b md_blocks tr)
      as [[md_blocks1 | e] tr1] eqn:Eb; [| discriminate].
    intros Hl Hall. apply (IH _ _ Hl).
    now apply (build_block_kept _ _ _ _ _ _ _ Hrec Eb).
Qed.

Lemma or_new_kept (md_blocks : option (list MdBlock)) :
  forallb (every_node (node_kept self)) (default [] md_blocks) = true ->
  forallb (every_node (node_kept self)) (or_new md_blocks).1 = true.
Proof. now destruct md_blocks as [[| b l] |]. Qed.

Lemma blocks_to_markdown_kept (fuel : nat) :
  builds_kept self (blocks_to_markdown fmt self fuel).
Proof.
  induction fuel as [| fuel IH]; intros blocks total_pages md_blocks tr nodes same tr'.
  - discriminate.
  - cbn [blocks_to_markdown]. destruct blocks as [[| b rest] |].
    + unfold mret, M_ret. intros [= E <-] Hall.
      apply or_new_kept in Hall. now rewrite E in Hall.
    + unfold mbind, M_bind.
      destruct (build_loop _ _ _ _ _ _ _) as [[r | e] tr1] eqn:El; [| discriminate].
      intros [= <- <- <-] Hall.
      apply (build_loop_kept _ _ _ _ _ _ _ IH El). now apply or_new_kept.
    + unfold mret, M_ret. intros [= E <-] Hall.
      apply or_new_kept in Hall. now rewrite E in Hall.
Qed.

End Pruning.

(** A run of the builder: the unsupported block leaves no node and no call. *)
Example unsupported_block_is_dropped :
  page_to_markdown Example.plain_md
    (init (Example.client
             [("root", [Example.block_of_type "unsupported"; Example.rule])]) None)
    1 "root" None []
  = (Ok [mkMdBlock "divider" "b2" (FStr "---") []], [Fetch "root" None]).
Proof. vm_compute. reflexivity. Qed.


Section Registry.

Context (fmt : md.formatter) (self : NotionToMarkdown).

Lemma build_block_registered recur recur' (total_pages : option Z) (block : Block)
    (ty : string) (md_blocks : list MdBlock) (tr : list event) :
  b_type block = Some ty ->
  is_Some (custom_transformers self !! ty) ->
  build_block fmt self recur total_pages block md_blocks tr
  = build_block fmt self recur' total_pages block md_blocks tr.
Proof.
  intros Hty Hreg. rewrite !(build_block_typed _ _ _ _ _ ty) by exact Hty.
  unfold build_typed_block.
  rewrite (bool_decide_eq_true_2 _ Hreg). reflexivity.
Qed.

Lemma build_block_registered_leaf recur (total_pages : option Z) (block : Block)
    (ty : string) (md_blocks md_blocks' : list MdBlock) (tr tr' : list event) :
  b_type block = Some ty ->
  is_Some (custom_transformers self !! ty) ->
  build_block fmt self recur total_pages block md_blocks tr = (Ok md_blocks', tr') ->
  md_blocks' = md_blocks
  \/ exists node, md_blocks' = md_blocks ++ [node]
                  /\ md_type node = ty /\ md_children node = [].
Proof.
  intros Hty Hreg. rewrite (build_block_typed _ _ _ _ _ ty) by exact Hty.
  unfold build_typed_block.
  rewrite (bool_decide_eq_true_2 _ Hreg). cbn [negb].
  destruct (skipped self ty); [intros [= <- <-]; now left |].
  destruct (b_has_children block).
  - unfold mbind at 1, M_bind at 1, lift at 1.
    destruct (fetch_target block ty) as [block_id | e]; [| discriminate].
    unfold mbind at 1, M_bind at 1.
    destruct (get_block_children self block_id total_pages tr)
      as [[child_blocks | e] tr1]; [| discriminate].
    unfold mbind at 1, M_bind at 1.
    destruct (new_node fmt self block ty tr1) as [[node | e] tr2] eqn:En;
      [| discriminate].
    intros [= <- <-]. right. exists node. split; [reflexivity |].
    exact (new_node_children fmt self block ty tr1 tr2 node En).
  - unfold mbind at 1, M_bind at 1.
    destruct (new_node fmt self block ty tr) as [[node | e] tr2] eqn:En;
      [| discriminate].
    intros [= <- <-]. right. exists node. split; [reflexivity |].
    exact (new_node_children fmt self block ty tr tr2 node En).
Qed.

Lemma block_to_markdown_none_entry (block : Block) (ty : string) (tr : list event) :
  b_type block = Some ty ->
  custom_transformers self !! ty = Some None ->
  block_to_markdown fmt self block tr
  = if Py.mem ty VALID_BLOCK_TYPES then render_default fmt self block ty tr
    else (Raise (ValueError ("Invalid block type: " +:+ ty)), tr).
Proof.
  intros Hty Hreg. unfold block_to_markdown. rewrite Hty; cbv beta iota.
  destruct (Py.mem ty VALID_BLOCK_TYPES); cbn [negb]; [| reflexivity].
  now rewrite Hreg.
Qed.

End Registry.


(** ** The tree assembler *)

Section TreeAssembler.

Context (fmt : md.formatter) (config : ConfigurationOptions).

Lemma children_phase_ext (block : MdBlock)
    (recur recur' : string -> Z -> result (gmap string string))
    (page_identifier : string) (nesting_level : Z)
    (md_output : gmap string string) :
  (forall pid lvl, recur pid lvl = recur' pid lvl) ->
  children_phase fmt config block recur page_identifier nesting_level md_output
  = children_phase fmt config block recur' page_identifier nesting_level md_output.
Proof.
  intros H. unfold children_phase.
  destruct (md_children block); [reflexivity |].
  repeat (match goal with |- context [if ?c then _ else _] => destruct c end);
    try destruct (as_str (md_parent block)); unfold mbind, result_bind;
    rewrite ?H; reflexivity.
Qed.

Lemma process_block_eq
    (recur : list MdBlock -> string -> Z -> result (gmap string string))
    (block : MdBlock) (page_identifier : string)
    (nesting_level : Z) (md_output : gmap string string) :
  process_block fmt config recur block page_identifier nesting_level md_output
  = md_output' ← own_fragment fmt block page_identifier nesting_level md_output;
    children_phase fmt config block (recur (md_children block))
      page_identifier nesting_level md_output'.
Proof. reflexivity. Qed.

Lemma assemble_from_app
    (recur : list MdBlock -> string -> Z -> result (gmap string string))
    (pre post : list MdBlock) (page_identifier : string)
    (nesting_level : Z) (md_output : gmap string string) :
  assemble_from fmt config recur (pre ++ post) page_identifier nesting_level md_output
  = md_output' ← assemble_from fmt config recur pre page_identifier nesting_level
                   md_output;
    assemble_from fmt config recur post page_identifier nesting_level md_output'.
Proof.
  revert md_output. induction pre as [| b pre IH]; intros md_output.
  - reflexivity.
  - cbn [app assemble_from].
    destruct (process_block fmt config recur b page_identifier nesting_level md_output)
      as [md_output' | e]; [apply IH | reflexivity].
Qed.

(** A call that has budget left runs the loop, its nested calls with one
    call less. *)
Lemma to_markdown_string_S (fuel : nat) (md_blocks : list MdBlock)
    (page_identifier : string) (nesting_level : Z) :
  to_markdown_string fmt config (S fuel) md_blocks page_identifier nesting_level
  = assemble_from fmt config (to_markdown_string fmt config fuel) md_blocks
      page_identifier nesting_level ∅.
Proof. reflexivity. Qed.

End TreeAssembler.


Section DocumentMap.

Lemma lookup_touch_ne (key k : string) (m : gmap string string) :
  k <> key -> touch key m !! k = m !! k.
Proof. intros H. unfold touch. now rewrite lookup_insert_ne. Qed.


Lemma lookup_append_to_ne (key k text : string) (m : gmap string string) :
  k <> key -> append_to key text m !! k = m !! k.
Proof. intros H. unfold append_to. now rewrite lookup_insert_ne. Qed.

Lemma append_to_touch (key text : string) (m : gmap string string) :
  append_to key text (touch key m) = <[key := get_or_empty m key +:+ text]> m.
Proof.
  unfold append_to, touch, get_or_empty. rewrite lookup_insert_eq. cbn [default].
  apply insert_insert_eq.
Qed.

Lemma lookup_merge_items (m md_str : gmap string string) (k : string) :
  merge_items m md_str !! k
  = match m !! k, md_str !! k with
    | Some old, Some value => Some (old +:+ value)
    | Some old, None => Some old
    | None, o => o
    end.
Proof.
  unfold merge_items. rewrite lookup_union_with.
  now destruct (m !! k), (md_str !! k).
Qed.


End DocumentMap.

Section InlineMode.

Context (fmt : md.formatter) (config : ConfigurationOptions).
Hypothesis inline : separate_child_page config = false.

Lemma own_fragment_other (block : MdBlock) (pid : string) (lvl : Z)
    (md_output r : gmap string string) (k : string) :
  own_fragment fmt block pid lvl md_output = Ok r ->
  k <> pid -> r !! k = md_output !! k.
Proof.
  unfold own_fragment. intros H Hk.
  destruct (_ && _); [| now injection H as <-].
  destruct (as_str (md_parent block)) as [text | e]; [| discriminate].
  cbn [mbind result_bind] in H.
  destruct (negb _); injection H as <-;
    now rewrite lookup_append_to_ne, lookup_touch_ne.
Qed.

Lemma assemble_from_other
    (recur : list MdBlock -> string -> Z -> result (gmap string string))
    (blocks : list MdBlock) :
  Forall (own_document_only fmt config recur) blocks ->
  forall pid lvl md_output r,
    assemble_from fmt config recur blocks pid lvl md_output = Ok r ->
    forall k, k <> pid -> r !! k = md_output !! k.
Proof.
  induction 1 as [| b rest Hb _ IH]; intros pid lvl md_output r.
  - now intros [= <-].
  - cbn [assemble_from].
    destruct (process_block fmt config recur b pid lvl md_output) as [m1 | e] eqn:E;
      [| discriminate].
    intros Hr k Hk. rewrite (IH _ _ _ _ Hr k Hk). exact (Hb _ _ _ _ E k Hk).
Qed.

Lemma process_block_other
    (recur : list MdBlock -> string -> Z -> result (gmap string string))
    (block : MdBlock) :
  current_document_only recur -> own_document_only fmt config recur block.
Proof.
  intros Hrec pid lvl md_output r. rewrite process_block_eq.
  destruct (own_fragment fmt _ pid lvl md_output) as [m1 | e] eqn:Eown;
    [| discriminate].
  cbn [mbind result_bind]. intros Hr k Hk.
  rewrite <- (own_fragment_other _ _ _ _ _ _ Eown Hk).
  unfold children_phase in Hr.
  destruct (md_children block) as [| c cs]; [now injection Hr as <- |].
  destruct (Py.mem (md_type block) _).
  { destruct (recur (c :: cs) pid 0) as [md_str |] eqn:E; [| discriminate].
    injection Hr as <-. rewrite lookup_merge_items, lookup_touch_ne by exact Hk.
    rewrite (Hrec _ _ _ _ E k Hk). now destruct (m1 !! k). }
  destruct (String.eqb (md_type block) "child_page").
  { destruct (as_str (md_parent block)) as [title |]; [| discriminate].
    cbn [mbind result_bind] in Hr.
    destruct (recur (c :: cs) title 0) as [md_str |]; [| discriminate].
    cbn [mbind result_bind] in Hr. rewrite inline in Hr.
    destruct (md_str !! title); injection Hr as <-;
      now rewrite ?lookup_append_to_ne, lookup_touch_ne. }
  destruct (String.eqb (md_type block) "toggle").
  { destruct (recur (c :: cs) "parent" 0); [| discriminate].
    cbn [mbind result_bind] in Hr.
    destruct (as_str (md_parent block)); [| discriminate]. injection Hr as <-.
    now rewrite lookup_append_to_ne, lookup_touch_ne. }
  destruct (String.eqb (md_type block) "quote").
  { destruct (recur (c :: cs) pid lvl) as [md_str |]; [| discriminate].
    injection Hr as <-. rewrite lookup_append_to_ne by exact Hk.
    destruct (pick_entry pid md_str);
      now rewrite ?lookup_append_to_ne, lookup_touch_ne. }
  destruct (negb _); [| now injection Hr as <-].
  destruct (recur (c :: cs) pid (lvl + 1)) as [md_str |]; [| discriminate].
  cbn [mbind result_bind] in Hr.
  destruct (pick_entry pid md_str); injection Hr as <-;
    now rewrite ?lookup_append_to_ne, lookup_touch_ne.
Qed.

Lemma to_markdown_string_other (fuel : nat) :
  current_document_only (to_markdown_string fmt config fuel).
Proof.
  induction fuel as [| fuel IH]; intros blocks pid lvl r; [discriminate |].
  rewrite to_markdown_string_S. intros Hr k Hk.
  rewrite <- (lookup_empty (M := gmap string) (A := string) k).
  refine (assemble_from_other _ blocks _ _ _ _ _ Hr k Hk).
  apply Forall_forall. intros b _. now apply process_block_other.
Qed.

End InlineMode.


Section ChildPage.

Context (fmt : md.formatter).


End ChildPage.


Section OwnFragment.

Context (fmt : md.formatter) (config : ConfigurationOptions).

Lemma nonempty_true (s : string) : s <> "" -> Py.nonempty s = true.
Proof.
  intros H. unfold Py.nonempty. apply negb_true_iff. now apply String.eqb_neq.
Qed.

Lemma own_fragment_text (block : MdBlock) (text pid : string) (lvl : Z)
    (md_output : gmap string string) :
  md_parent block = FStr text ->
  text <> "" ->
  Py.mem (md_type block) ["toggle"; "child_page"] = false ->
  own_fragment fmt block pid lvl md_output
  = Ok (<[pid := get_or_empty md_output pid
                 +:+ own_layout fmt (md_type block) text lvl]> md_output).
Proof.
  intros Hp Ht Hty. unfold own_fragment, own_layout. rewrite Hp, Hty.
  cbn [truthy as_str negb andb mbind result_bind]. rewrite (nonempty_true _ Ht).
  destruct (Py.mem (md_type block) ["to_do"; _; _; _]); cbn [negb];
    now rewrite append_to_touch.
Qed.

Lemma process_leaf
    (recur : list MdBlock -> string -> Z -> result (gmap string string))
    (block : MdBlock) (pid : string) (lvl : Z)
    (md_output : gmap string string) :
  md_children block = [] ->
  process_block fmt config recur block pid lvl md_output
  = own_fragment fmt block pid lvl md_output.
Proof.
  intros Hc. rewrite process_block_eq. unfold children_phase. rewrite Hc.
  now destruct (own_fragment fmt block pid lvl md_output).
Qed.

End OwnFragment.


Import Example.

(** The nodes of a paragraph "Hello" and of a rule, assembled as a root
    page. *)
Lemma hello_rule_document (fmt : md.formatter) (config : ConfigurationOptions)
    (fuel : nat) :
  (forall text, md.add_tab_space fmt text 0 = text) ->
  to_markdown_string fmt config (S fuel)
    [leaf "paragraph" "Hello"; leaf "divider" "---"] "parent" 0
  = Ok {[ "parent" := Py.nl +:+ "Hello" +:+ Py.nl +:+ Py.nl
                      +:+ Py.nl +:+ "---" +:+ Py.nl +:+ Py.nl ]}.
Proof.
  intros Ht. rewrite to_markdown_string_S. cbn [assemble_from].
  rewrite process_leaf by reflexivity.
  rewrite (own_fragment_text fmt _ "Hello") by (reflexivity || discriminate).
  rewrite process_leaf by reflexivity.
  rewrite (own_fragment_text fmt _ "---") by (reflexivity || discriminate).
  unfold own_layout. cbn [md_type leaf]. rewrite !Ht. vm_compute. reflexivity.
Qed.


(** ** Synced blocks *)

Section SyncedBlock.

Context (fmt : md.formatter) (self : NotionToMarkdown).

Lemma raw_blocks_assemble
    (recur : list MdBlock -> string -> Z -> result (gmap string string))
    (blocks : list Block) (pid : string) (lvl : Z)
    (md_output : gmap string string) :
  assemble_from fmt (config self) recur (map (as_md_block) blocks) pid lvl md_output
  = Ok md_output.
Proof.
  induction blocks as [| b rest IH]; [reflexivity |].
  cbn [map assemble_from]. rewrite process_leaf by reflexivity. exact IH.
Qed.


End SyncedBlock.


Lemma cyclic_children_recursion (fuel : nat) (md_blocks : option (list MdBlock))
    (tr : list event) :
  exists tr',
    blocks_to_markdown plain_md (init (client [("A", [self_synced])]) None) fuel
      (Some [self_synced]) None md_blocks tr
    = (Raise RecursionError, tr').
Proof.
  revert md_blocks tr. induction fuel as [| fuel IH]; intros md_blocks tr.
  - now eexists.
  - set (self := init (client [("A", [self_synced])]) None) in *.
    assert (Hb : exists tr',
               build_block plain_md self (blocks_to_markdown plain_md self fuel) None
                 self_synced (or_new md_blocks).1 tr = (Raise RecursionError, tr')).
    { rewrite (build_block_typed _ _ _ _ _ "synced_block") by reflexivity.
      unfold build_typed_block.
      replace (skipped self "synced_block") with false by reflexivity.
      replace (b_has_children self_synced) with true by reflexivity.
      replace (fetch_target self_synced "synced_block") with (Ok "A" : result string)
        by reflexivity.
      rewrite bind_lift_ok.
      erewrite (bind_ok (get_block_children self "A" None)) by reflexivity.
      erewrite (bind_ok (new_node plain_md self self_synced "synced_block"))
        by (vm_compute; reflexivity).
      replace (negb (bool_decide (is_Some (custom_transformers self !! "synced_block"))))
        with true by reflexivity.
      cbn [md_children].
      match goal with
      | |- exists _, (_ ≫= _) ?t = _ => destruct (IH (Some []) t) as [tr' Hrec]
      end.
      exists tr'. now apply bind_raise. }
    destruct Hb as [tr' Hb]. exists tr'.
    cbn [blocks_to_markdown build_loop].
    apply bind_raise. now apply bind_raise.
Qed.


(** ** The list handed to the recursive call *)

Section Aliasing.

Context (fmt : md.formatter) (self : NotionToMarkdown).

Lemma blocks_to_markdown_same (fuel : nat) (blocks : option (list Block))
    (total_pages : option Z) (md_blocks : option (list MdBlock))
    (tr tr' : list event) (nodes : list MdBlock) (same : bool) :
  blocks_to_markdown fmt self fuel blocks total_pages md_blocks tr
  = (Ok (nodes, same), tr') ->
  same = (or_new md_blocks).2.
Proof.
  destruct fuel as [| fuel]; [discriminate |]. cbn [blocks_to_markdown].
  destruct blocks as [[| b rest] |].
  - unfold mret, M_ret. intros [= H _]. now rewrite H.
  - unfold mbind, M_bind.
    destruct (build_loop _ _ _ _ _ _ _) as [[r | e] tr1]; [| discriminate].
    now intros [= _ <- _].
  - unfold mret, M_ret. intros [= H _]. now rewrite H.
Qed.

(** The [children] list of a new node is empty, so the callee rebinds
    [md_blocks] to a list of its own: the node keeps no children. *)
Lemma build_block_flat (fuel : nat) (total_pages : option Z) (block : Block)
    (md_blocks md_blocks' : list MdBlock) (tr tr' : list event) :
  build_block fmt self (blocks_to_markdown fmt self fuel) total_pages block
    md_blocks tr = (Ok md_blocks', tr') ->
  md_blocks' = md_blocks
  \/ exists node, md_blocks' = md_blocks ++ [node] /\ md_children node = [].
Proof.
  destruct (b_type block) as [ty |] eqn:Hty;
    [| unfold build_block; rewrite Hty; discriminate].
  rewrite (build_block_typed _ _ _ _ _ ty) by exact Hty.
  unfold build_typed_block.
  destruct (skipped self ty); [intros [= <- <-]; now left |].
  destruct (b_has_children block).
  - unfold mbind at 1, M_bind at 1, lift at 1.
    destruct (fetch_target block ty) as [block_id | e]; [| discriminate].
    unfold mbind at 1, M_bind at 1.
    destruct (get_block_children self block_id total_pages tr)
      as [[child_blocks | e] tr1]; [| discriminate].
    unfold mbind at 1, M_bind at 1.
    destruct (new_node fmt self block ty tr1) as [[node | e] tr2] eqn:En;
      [| discriminate].
    destruct (new_node_children fmt self block ty tr1 tr2 node En) as [_ Hch].
    destruct (negb _).
    + unfold mbind, M_bind.
      destruct (blocks_to_markdown fmt self fuel (Some child_blocks) total_pages
                  (Some (md_children node)) tr2)
        as [[[built same] | e] tr3] eqn:Er; [| discriminate].
      apply blocks_to_markdown_same in Er. rewrite Hch in Er. cbn in Er. subst same.
      intros [= <- <-]. right. eexists. split; [reflexivity | exact Hch].
    + intros [= <- <-]. right. exists node. now split.
  - unfold mbind at 1, M_bind at 1.
    destruct (new_node fmt self block ty tr) as [[node | e] tr2] eqn:En;
      [| discriminate].
    destruct (new_node_children fmt self block ty tr tr2 node En) as [_ Hch].
    intros [= <- <-]. right. exists node. now split.
Qed.

Lemma build_loop_flat (fuel : nat) (total_pages : option Z) (blocks : list Block)
    (md_blocks md_blocks' : list MdBlock) (tr tr' : list event) :
  build_loop fmt self (blocks_to_markdown fmt self fuel) total_pages blocks
    md_blocks tr = (Ok md_blocks', tr') ->
  exists new, md_blocks' = md_blocks ++ new
              /\ Forall (fun node => md_children node = []) new.
Proof.
  revert md_blocks tr. induction blocks as [| b rest IH]; intros md_blocks tr.
  - intros [= <- <-]. exists []. split; [now rewrite app_nil_r | constructor].
  - cbn [build_loop]. unfold mbind, M_bind.
    destruct (build_block _ _ _ _ _ _ _) as [[md_blocks1 | e] tr1] eqn:Eb;
      [| discriminate].
    intros Hl. destruct (IH _ _ Hl) as (new & -> & Hnew).
    destruct (build_block_flat _ _ _ _ _ _ _ Eb) as [-> | (node & -> & Hnode)].
    + now exists new.
    + exists (node :: new). split; [now rewrite <- app_assoc | now constructor].
Qed.

Lemma page_to_markdown_flat (fuel : nat) (page_id : string)
    (total_pages : option Z) (tr tr' : list event) (md_blocks : list MdBlock) :
  page_to_markdown fmt self fuel page_id total_pages tr = (Ok md_blocks, tr') ->
  Forall (fun node => md_children node = []) md_blocks.
Proof.
  unfold page_to_markdown. unfold mbind at 1, M_bind at 1.
  destruct (get_block_children self page_id total_pages tr)
    as [[blocks | e] tr1]; [| discriminate].
  unfold mbind, M_bind.
  destruct (blocks_to_markdown fmt self fuel (Some blocks) None None tr1)
    as [[[nodes same] | e] tr2] eqn:E; [| discriminate].
  intros [= <- <-].
  destruct fuel as [| fuel]; [discriminate |]. cbn [blocks_to_markdown] in E.
  destruct blocks as [| b rest].
  - injection E as <- _ _. constructor.
  - unfold mbind, M_bind in E.
    destruct (build_loop _ _ _ _ _ _ _) as [[r | e] tr3] eqn:El; [| discriminate].
    injection E as <- _ _.
    destruct (build_loop_flat _ _ _ _ _ _ _ El) as (new & -> & Hnew). exact Hnew.
Qed.

End Aliasing.


(** ** The quote branch *)

Section Quote.

Context (fmt : md.formatter) (config : ConfigurationOptions).

Context (recur : list MdBlock -> string -> Z -> result (gmap string string)).

Lemma quote_children_phase (bid : string) (parent : Fragment)
    (children : list MdBlock) (pid : string) (lvl : Z)
    (md_output md_str : gmap string string) :
  children <> [] ->
  recur children pid lvl = Ok md_str ->
  children_phase fmt config (mkMdBlock "quote" bid parent children)
    (recur children) pid lvl md_output
  = Ok (append_to pid Py.nl
          (match pick_entry pid md_str with
           | Some _ => append_to pid (format_quote (get_or_empty md_str "parent"))
                         (touch pid md_output)
           | None => touch pid md_output
           end)).
Proof.
  intros Hne Hrec. unfold children_phase. cbn [md_type md_children].
  destruct children as [| c cs]; [congruence |].
  replace (Py.mem "quote" ["synced_block"; "column_list"; "column"])
    with false by reflexivity.
  replace (String.eqb "quote" "child_page") with false by reflexivity.
  replace (String.eqb "quote" "toggle") with false by reflexivity.
  replace (String.eqb "quote" "quote") with true by reflexivity.
  rewrite Hrec. reflexivity.
Qed.

(** In the root document the children's text is reflowed line by line. *)
Lemma quote_children_root (bid : string) (parent : Fragment)
    (children : list MdBlock) (lvl : Z)
    (md_output md_str : gmap string string) (text : string) :
  children <> [] ->
  recur children "parent" lvl = Ok md_str ->
  md_str !! "parent" = Some text ->
  children_phase fmt config (mkMdBlock "quote" bid parent children)
    (recur children) "parent" lvl md_output
  = Ok (<["parent" := get_or_empty md_output "parent"
                      +:+ format_quote text +:+ Py.nl]> md_output).
Proof.
  intros Hne Hrec Htext. rewrite (quote_children_phase _ _ _ _ _ _ md_str Hne Hrec).
  unfold pick_entry.
  replace (String.eqb "parent" "parent") with true by reflexivity.
  cbn [negb andb]. rewrite bool_decide_eq_true_2 by (rewrite Htext; eauto).
  unfold get_or_empty at 1. rewrite Htext. cbn [default from_option id].
  rewrite append_to_touch. unfold append_to, get_or_empty.
  rewrite lookup_insert_eq. cbn [default from_option id].
  rewrite insert_insert_eq. now rewrite append_assoc.
Qed.

(** In any other document the reflow still reads the ["parent"] entry of
    the recursive result, which that pass did not write: the children's
    text, which is under [pid], is replaced by a bare quote marker. *)
Lemma quote_children_elsewhere (bid : string) (parent : Fragment)
    (children : list MdBlock) (pid : string) (lvl : Z)
    (md_output md_str : gmap string string) (text : string) :
  children <> [] ->
  pid <> "parent" ->
  recur children pid lvl = Ok md_str ->
  md_str !! "parent" = None ->
  md_str !! pid = Some text ->
  children_phase fmt config (mkMdBlock "quote" bid parent children)
    (recur children) pid lvl md_output
  = Ok (<[pid := get_or_empty md_output pid +:+ ">" +:+ Py.nl]> md_output).
Proof.
  intros Hne Hpid Hrec Hroot Htext.
  rewrite (quote_children_phase _ _ _ _ _ _ md_str Hne Hrec).
  unfold pick_entry. rewrite Hroot.
  rewrite (bool_decide_eq_false_2 (is_Some None)) by (intros [? ?]; discriminate).
  rewrite andb_false_r. rewrite bool_decide_eq_true_2 by (rewrite Htext; eauto).
  unfold get_or_empty at 1. rewrite Hroot. cbn [default from_option id].
  replace (format_quote "") with ">" by reflexivity.
  rewrite append_to_touch. unfold append_to, get_or_empty.
  rewrite lookup_insert_eq. cbn [default from_option id].
  rewrite insert_insert_eq. now rewrite append_assoc.
Qed.

End Quote.


(** ** Append-only documents *)

Section AppendOnly.

Lemma extends_refl (m : gmap string string) : extends m m.
Proof. intros k s H. exists "". now rewrite append_empty_r. Qed.

Lemma extends_trans (a b c : gmap string string) :
  extends a b -> extends b c -> extends a c.
Proof.
  intros Hab Hbc k s H. destruct (Hab k s H) as [x Hx].
  destruct (Hbc k _ Hx) as [y Hy]. exists (x +:+ y). now rewrite <- append_assoc.
Qed.

Lemma extends_touch (key : string) (m : gmap string string) :
  extends m (touch key m).
Proof.
  intros k s H. exists "". rewrite append_empty_r. unfold touch, get_or_empty.
  destruct (decide (k = key)) as [-> | Hne].
  - now rewrite lookup_insert_eq, H.
  - now rewrite lookup_insert_ne.
Qed.

Lemma extends_append_to (key text : string) (m : gmap string string) :
  extends m (append_to key text m).
Proof.
  intros k s H. unfold append_to, get_or_empty.
  destruct (decide (k = key)) as [-> | Hne].
  - exists text. now rewrite lookup_insert_eq, H.
  - exists "". rewrite append_empty_r. now rewrite lookup_insert_ne.
Qed.

Lemma extends_merge_items (m md_str : gmap string string) :
  extends m (merge_items m md_str).
Proof.
  intros k s H. rewrite lookup_merge_items, H.
  destruct (md_str !! k) as [value |]; [now exists value |].
  exists "". now rewrite append_empty_r.
Qed.

Context (fmt : md.formatter) (config : ConfigurationOptions).
Context (recur : list MdBlock -> string -> Z -> result (gmap string string)).

Lemma own_fragment_extends (block : MdBlock) (pid : string) (lvl : Z)
    (md_output r : gmap string string) :
  own_fragment fmt block pid lvl md_output = Ok r -> extends md_output r.
Proof.
  unfold own_fragment.
  destruct (_ && _); [| intros [= <-]; apply extends_refl].
  destruct (as_str (md_parent block)) as [text | e]; [| discriminate].
  cbn [mbind result_bind].
  destruct (negb _); intros [= <-];
    (eapply extends_trans; [apply extends_touch | apply extends_append_to]).
Qed.

(** Every iteration of the loop is append-only, but for a child page
    that is split off. *)
Lemma process_block_extends (block : MdBlock) (pid : string) (lvl : Z)
    (md_output r : gmap string string) :
  separate_child_page config = false \/ md_type block <> "child_page" ->
  process_block fmt config recur block pid lvl md_output = Ok r ->
  extends md_output r.
Proof.
  intros Hmode. rewrite process_block_eq.
  destruct (own_fragment fmt block pid lvl md_output) as [m1 | e] eqn:Eown;
    [| discriminate].
  cbn [mbind result_bind]. intros Hr.
  apply (extends_trans _ m1); [exact (own_fragment_extends _ _ _ _ _ Eown) |].
  clear Eown. unfold children_phase in Hr.
  destruct (md_children block) as [| c cs]; [injection Hr as <-; apply extends_refl |].
  destruct (Py.mem (md_type block) _).
  { destruct (recur (c :: cs) pid 0) as [md_str |]; [| discriminate]. injection Hr as <-.
    eapply extends_trans; [apply extends_touch | apply extends_merge_items]. }
  destruct (String.eqb (md_type block) "child_page") eqn:Ecp.
  { destruct (as_str (md_parent block)) as [title |]; [| discriminate].
    cbn [mbind result_bind] in Hr.
    destruct (recur (c :: cs) title 0) as [md_str |]; [| discriminate].
    cbn [mbind result_bind] in Hr.
    destruct Hmode as [Hmode | Hmode];
      [| apply String.eqb_eq in Ecp; contradiction].
    rewrite Hmode in Hr.
    destruct (md_str !! title); injection Hr as <-.
    - eapply extends_trans; [apply extends_touch | apply extends_append_to].
    - apply extends_touch. }
  destruct (String.eqb (md_type block) "toggle").
  { destruct (recur (c :: cs) "parent" 0); [| discriminate]. cbn [mbind result_bind] in Hr.
    destruct (as_str (md_parent block)); [| discriminate]. injection Hr as <-.
    eapply extends_trans; [apply extends_touch | apply extends_append_to]. }
  destruct (String.eqb (md_type block) "quote").
  { destruct (recur (c :: cs) pid lvl) as [md_str |]; [| discriminate]. injection Hr as <-.
    eapply extends_trans; [| apply extends_append_to].
    destruct (pick_entry pid md_str); [| apply extends_touch].
    eapply extends_trans; [apply extends_touch | apply extends_append_to]. }
  destruct (negb _); [| injection Hr as <-; apply extends_refl].
  destruct (recur (c :: cs) pid (lvl + 1)) as [md_str |]; [| discriminate].
  cbn [mbind result_bind] in Hr.
  destruct (pick_entry pid md_str); injection Hr as <-; [| apply extends_touch].
  eapply extends_trans; [apply extends_touch | apply extends_append_to].
Qed.

Lemma assemble_from_extends (blocks : list MdBlock) (pid : string) (lvl : Z)
    (md_output r : gmap string string) :
  separate_child_page config = false ->
  assemble_from fmt config recur blocks pid lvl md_output = Ok r ->
  extends md_output r.
Proof.
  intros Hmode. revert md_output.
  induction blocks as [| b rest IH]; intros md_output.
  - intros [= <-]. apply extends_refl.
  - cbn [assemble_from].
    destruct (process_block fmt config recur b pid lvl md_output) as [m1 |] eqn:E;
      [| discriminate].
    intros Hr. apply (extends_trans _ m1); [| now apply IH].
    apply (process_block_extends _ _ _ _ _ (or_introl Hmode) E).
Qed.

End AppendOnly.

(** ** The recursion budget *)

Section Budget.

Context (fmt : md.formatter) (config : ConfigurationOptions).

Lemma children_phase_mono (block : MdBlock)
    (recur recur' : string -> Z -> result (gmap string string))
    (pid : string) (lvl : Z) (md_output r : gmap string string) :
  (forall pid lvl r, recur pid lvl = Ok r -> recur' pid lvl = Ok r) ->
  children_phase fmt config block recur pid lvl md_output = Ok r ->
  children_phase fmt config block recur' pid lvl md_output = Ok r.
Proof.
  intros H. unfold children_phase.
  destruct (md_children block) as [| c cs]; [trivial |].
  destruct (Py.mem (md_type block) _).
  { destruct (recur pid 0) as [md_str |] eqn:E; [| discriminate].
    now rewrite (H _ _ _ E). }
  destruct (String.eqb (md_type block) "child_page").
  { destruct (as_str (md_parent block)) as [title |]; [| discriminate].
    cbn [mbind result_bind].
    destruct (recur title 0) as [md_str |] eqn:E; [| discriminate].
    now rewrite (H _ _ _ E). }
  destruct (String.eqb (md_type block) "toggle").
  { destruct (recur "parent" 0) as [md_str |] eqn:E; [| discriminate].
    now rewrite (H _ _ _ E). }
  destruct (String.eqb (md_type block) "quote").
  { destruct (recur pid lvl) as [md_str |] eqn:E; [| discriminate].
    now rewrite (H _ _ _ E). }
  destruct (negb _); [| trivial].
  destruct (recur pid (lvl + 1)) as [md_str |] eqn:E; [| discriminate].
  now rewrite (H _ _ _ E).
Qed.

Lemma process_block_mono
    (recur recur' : list MdBlock -> string -> Z -> result (gmap string string))
    (block : MdBlock) (pid : string) (lvl : Z) (md_output r : gmap string string) :
  (forall bs pid lvl r, recur bs pid lvl = Ok r -> recur' bs pid lvl = Ok r) ->
  process_block fmt config recur block pid lvl md_output = Ok r ->
  process_block fmt config recur' block pid lvl md_output = Ok r.
Proof.
  intros H. unfold process_block.
  destruct (own_fragment fmt block pid lvl md_output) as [m1 |]; [| discriminate].
  cbn [mbind result_bind]. apply children_phase_mono. intros. now apply H.
Qed.

Lemma assemble_from_mono
    (recur recur' : list MdBlock -> string -> Z -> result (gmap string string))
    (blocks : list MdBlock) (pid : string) (lvl : Z) :
  (forall bs pid lvl r, recur bs pid lvl = Ok r -> recur' bs pid lvl = Ok r) ->
  forall md_output r,
    assemble_from fmt config recur blocks pid lvl md_output = Ok r ->
    assemble_from fmt config recur' blocks pid lvl md_output = Ok r.
Proof.
  intros H. induction blocks as [| b rest IH]; intros md_output r; [trivial |].
  cbn [assemble_from].
  destruct (process_block fmt config recur b pid lvl md_output) as [m1 |] eqn:E;
    [| discriminate].
  rewrite (process_block_mono _ _ _ _ _ _ _ H E). apply IH.
Qed.

(** A result obtained within a budget is the result within every larger
    budget. *)
Lemma to_markdown_string_mono (fuel fuel' : nat) :
  (fuel <= fuel')%nat ->
  forall md_blocks pid lvl r,
    to_markdown_string fmt config fuel md_blocks pid lvl = Ok r ->
    to_markdown_string fmt config fuel' md_blocks pid lvl = Ok r.
Proof.
  revert fuel'. induction fuel as [| fuel IH]; intros fuel' Hle md_blocks pid lvl r;
    [discriminate |].
  destruct fuel' as [| fuel']; [lia |].
  rewrite !to_markdown_string_S. apply assemble_from_mono.
  apply IH. lia.
Qed.

Lemma document_mono (fuel fuel' : nat) (md_blocks : list MdBlock)
    (pid : string) (lvl : Z) (key text : string) :
  (fuel <= fuel')%nat ->
  document (to_markdown_string fmt config fuel md_blocks pid lvl) key = Some text ->
  document (to_markdown_string fmt config fuel' md_blocks pid lvl) key = Some text.
Proof.
  intros Hle.
  destruct (to_markdown_string fmt config fuel md_blocks pid lvl) as [r |] eqn:E;
    [| discriminate].
  now rewrite (to_markdown_string_mono fuel fuel' Hle _ _ _ _ E).
Qed.

End Budget.

(** ** Steps that add text to the current document *)

Section Appending.






Lemma appends_touch (pid : string) : appends pid (fun m => Ok (touch pid m)).
Proof.
  exists (Ok (Some "")). intros m. cbn. unfold touch. now rewrite append_empty_r.
Qed.





Context (fmt : md.formatter) (config : ConfigurationOptions).




End Appending.

(** ** Lists without a child page to split off *)

Section Tame.

Context (fmt : md.formatter) (config : ConfigurationOptions).








End Tame.

(** ** The one child page of a tree *)

Section OnePage.

Context (fmt : md.formatter) (config : ConfigurationOptions).
Context (bid title : string) (children : list MdBlock).
Context (fuel : nat) (doc : gmap string string).
Hypothesis children_nonempty : children <> [].
Hypothesis children_doc :
  to_markdown_string fmt config fuel children title 0 = Ok doc.






End OnePage.

(** * The claims *)

(** ** C1: the identity of the inline text renderer *)

(** C1 (code at the failing input).  For a text-bearing block with no
    custom transformer in force whose spans carry no hyperlink, no
    math-expression marker and no active style flag, [block_to_markdown]
    returns the concatenation of the spans' plain text only when there is no
    span at all.  With one span or more it raises [AttributeError] at the
    first of them: line 86 calls [self.annotate_plain_text], a method the
    class does not define.  No collaborator has been called by then. *)
Theorem C1_plain_text_raises (fmt : md.formatter) (self : NotionToMarkdown)
    (block : Block) (ty : string) (tr : list event) :
  b_type block = Some ty ->
  Py.mem ty TEXT_BLOCK_TYPES = true ->
  (forall f, custom_transformers self !! ty <> Some (Some f)) ->
  forallb unstyled (rich_text_of block) = true ->
  block_to_markdown fmt self block tr
  = (match rich_text_of block with
     | [] => Ok (FStr (plain_concat (rich_text_of block)))
     | _ :: _ => Raise (AttributeError "annotate_plain_text")
     end, tr).
Proof.
  intros Hty Htext Hreg Hspans.
  rewrite (block_to_markdown_default fmt self block ty Hty
             (text_type_valid ty Htext) Hreg).
  rewrite (render_default_text fmt self block ty tr Htext Hspans).
  now destruct (rich_text_of block).
Qed.

Lemma C1_plain_text_raises_witness :
  plain_concat (rich_text_of hello_world) = "Hello, world"
  /\ block_to_markdown plain_md bare hello_world []
     = (Raise (AttributeError "annotate_plain_text"), []).
Proof.
  split; [reflexivity |].
  apply (C1_plain_text_raises plain_md bare hello_world "paragraph" []).
  - reflexivity.
  - reflexivity.
  - intros f H. vm_compute in H. discriminate H.
  - reflexivity.
Defined.

(** ** C2: a type outside the enumeration *)

(** C2, as stated, fails on the size of the enumeration: [VALID_BLOCK_TYPES]
    has 32 distinct members and [block_to_markdown] accepts every one of them,
    so whatever 31 types are taken for the enumeration, some block whose type
    is not among them is rendered without an invalid-block-type error. *)
Lemma C2_counterexample :
  ~ exists enumeration : list string,
      length enumeration = 31%nat
      /\ forall ty, ty ∉ enumeration ->
           exists msg tr,
             block_to_markdown plain_md bare (block_of_type ty) []
             = (Raise (ValueError msg), tr).
Proof.
  intros (enumeration & Hlen & Hraise).
  assert (Hnodup : NoDup VALID_BLOCK_TYPES).
  { apply (bool_decide_unpack _). vm_compute. exact I. }
  assert (Hok : Forall (fun ty =>
            is_ok (block_to_markdown plain_md bare (block_of_type ty) []).1 = true)
            VALID_BLOCK_TYPES).
  { apply Forall_forall. intros ty Hin. unfold VALID_BLOCK_TYPES in Hin.
    repeat (apply elem_of_cons in Hin as [-> | Hin]; [vm_compute; reflexivity |]).
    now apply elem_of_nil in Hin. }
  destruct (decide (Forall (fun ty => ty ∈ enumeration) VALID_BLOCK_TYPES))
    as [Hall | Hsome].
  - assert (Hsub : VALID_BLOCK_TYPES ⊆+ enumeration).
    { apply NoDup_submseteq; [exact Hnodup |]. now apply Forall_forall. }
    apply submseteq_length in Hsub. rewrite Hlen in Hsub.
    vm_compute in Hsub. lia.
  - apply not_Forall_Exists in Hsome; [| intros ty; apply _].
    apply Exists_exists in Hsome as (ty & Hin & Hout).
    destruct (Hraise ty Hout) as (msg & tr & Hr).
    rewrite Forall_forall in Hok. specialize (Hok ty Hin). now rewrite Hr in Hok.
Qed.

(** C2 (amended): the closed enumeration has 32 types; for every block whose
    type field is present but is not one of them, [block_to_markdown] raises
    the invalid-block-type error instead of returning a string, and the
    conversion that meets the block ([blocks_to_markdown] on a list that holds
    it, [page_to_markdown] on a page whose children hold it) raises too,
    whatever the recursion budget: no list of nodes is returned.  When the
    block is the page's first, a leaf with an id, the conversion raises that
    very error after the one fetch of the page. *)
Theorem C2_invalid_block_type (fmt : md.formatter) (self : NotionToMarkdown)
    (block : Block) (ty : string) :
  b_type block = Some ty ->
  Py.mem ty VALID_BLOCK_TYPES = false ->
  length VALID_BLOCK_TYPES = 32%nat
  /\ (forall tr,
        block_to_markdown fmt self block tr
        = (Raise (ValueError ("Invalid block type: " +:+ ty)), tr))
  /\ (forall fuel blocks total_pages md_blocks tr,
        block ∈ blocks ->
        exists e tr',
          blocks_to_markdown fmt self fuel (Some blocks) total_pages md_blocks tr
          = (Raise e, tr'))
  /\ (forall fuel page_id total_pages blocks tr,
        notion_client self page_id total_pages = Ok blocks ->
        block ∈ blocks ->
        exists e tr',
          page_to_markdown fmt self fuel page_id total_pages tr = (Raise e, tr'))
  /\ (forall fuel page_id total_pages rest id tr,
        notion_client self page_id total_pages = Ok (block :: rest) ->
        b_has_children block = false ->
        b_id block = Some id ->
        page_to_markdown fmt self (S fuel) page_id total_pages tr
        = (Raise (ValueError ("Invalid block type: " +:+ ty)),
           tr ++ [Fetch page_id total_pages])).
Proof.
  intros Hty Hv. split; [reflexivity |]. split; [| split; [| split]].
  - intros tr. now apply block_to_markdown_invalid.
  - intros fuel blocks total_pages md_blocks tr Hin.
    now apply (blocks_to_markdown_invalid fmt self fuel total_pages blocks block ty).
  - intros fuel page_id total_pages blocks tr Hc Hin.
    now apply (page_to_markdown_invalid fmt self fuel page_id total_pages blocks block ty).
  - intros fuel page_id total_pages rest id tr Hc Hleaf Hid.
    now apply (page_to_markdown_invalid_first fmt self fuel page_id total_pages
                 block rest ty id).
Qed.

Lemma C2_invalid_block_type_witness :
  block_to_markdown plain_md bare (block_of_type "widget") []
  = (Raise (ValueError "Invalid block type: widget"), []).
Proof.
  destruct (C2_invalid_block_type plain_md bare (block_of_type "widget") "widget")
    as (_ & H & _).
  - reflexivity.
  - reflexivity.
  - apply H.
Defined.

(** ** C3: a registered custom transformer *)

(** C3, as stated, fails: a transformer registered for a type outside the
    enumeration is never called, the block is refused first. *)
Lemma C3_counterexample :
  custom_transformers
    (set_custom_transformer bare "widget" (Some (const_transformer "X")))
    !! "widget" = Some (Some (const_transformer "X"))
  /\ block_to_markdown plain_md
       (set_custom_transformer bare "widget" (Some (const_transformer "X")))
       (block_of_type "widget") []
     = (Raise (ValueError "Invalid block type: widget"), []).
Proof.
  split.
  - apply lookup_insert_eq.
  - apply block_to_markdown_invalid; reflexivity.
Qed.

(** C3 (amended): for every block whose type is one of the enumeration and
    has a registered, non-null custom transformer that returns,
    [block_to_markdown] returns exactly the transformer's result when it is a
    string and the empty string when it is not; the only collaborator called
    is the transformer, so the default rendering of the block (its fetches,
    warnings and image encoding) does not run, and the result depends on
    neither the formatter nor the configuration. *)
Theorem C3_custom_transformer (fmt : md.formatter) (self : NotionToMarkdown)
    (block : Block) (ty : string) (transformer : CustomTransformer)
    (r : TransformerResult) (tr : list event) :
  b_type block = Some ty ->
  Py.mem ty VALID_BLOCK_TYPES = true ->
  custom_transformers self !! ty = Some (Some transformer) ->
  transformer block = Ok r ->
  block_to_markdown fmt self block tr
  = (Ok (FStr (match r with RStr s => s | _ => "" end)), tr ++ [Transform ty]).
Proof.
  intros Hty Hv Hreg Hr.
  rewrite (block_to_markdown_transformer fmt self block ty transformer r tr
             Hty Hv Hreg Hr).
  now destruct r.
Qed.

Lemma C3_custom_transformer_witness :
  block_to_markdown plain_md
    (set_custom_transformer bare "paragraph" (Some (const_transformer "X")))
    hello []
  = (Ok (FStr "X"), [Transform "paragraph"]).
Proof.
  apply (C3_custom_transformer plain_md
           (set_custom_transformer bare "paragraph" (Some (const_transformer "X")))
           hello "paragraph" (const_transformer "X") (RStr "X") []).
  - reflexivity.
  - reflexivity.
  - apply lookup_insert_eq.
  - reflexivity.
Defined.

(** ** C4: a synced block that syncs from itself *)

(** C4 (code at the failing input).  Block A names itself as its source.
    Resolution fetches the children of A once, hands them to
    [to_markdown_string] and returns that document map: an empty dictionary,
    not the empty string, at depth 0, with no warning; the depth test is not
    what stops it.  A page that holds A is converted without failure and to
    nothing.  When the children of A hold A itself, the tree builder calls
    itself without end and the conversion stops on the recursion limit,
    whatever that limit is. *)
Theorem C4_self_synced_block :
  handle_synced_block plain_md (init (client [("A", [])]) None) self_synced 0 []
  = (Ok (FDoc ∅), [Fetch "A" None])
  /\ block_to_markdown plain_md (init (client [("A", [])]) None) self_synced []
     = (Ok (FDoc ∅), [Fetch "A" None])
  /\ FDoc ∅ <> FStr ""
  /\ convert_page plain_md (init (client [("root", [self_synced]); ("A", [])]) None)
       2 "root" = Ok ∅
  /\ forall fuel, exists tr',
       page_to_markdown plain_md (init (client [("A", [self_synced])]) None)
         fuel "A" None []
       = (Raise RecursionError, tr').
Proof.
  split; [vm_compute; reflexivity |]. split; [vm_compute; reflexivity |].
  split; [discriminate |]. split; [vm_compute; reflexivity |].
  intros fuel. unfold page_to_markdown.
  erewrite (bind_ok (get_block_children _ "A" None)) by reflexivity.
  destruct (cyclic_children_recursion fuel None ([] ++ [Fetch "A" None])) as [tr' H].
  exists tr'. now apply bind_raise.
Qed.

(** ** C5: a child page, split off or inlined *)




(** ** C6: the children of a quote *)

(** C6 (code at the failing input).  A quote with one paragraph child "x",
    assembled into the document "Child", within any budget that allows the
    nested call: the children are assembled under "Child" with the nesting
    level unchanged and give the text of the second equation; its
    line-by-line reflow is the third; but the quote appends a bare marker
    and a newline, because the reflow reads the entry "parent" of the
    recursive result.  In the root document the same node appends the
    reflowed text and a newline. *)
Theorem C6_quote_outside_root (fuel : nat) :
  to_markdown_string plain_md default_config (S (S fuel))
    [mkMdBlock "quote" "q" (FStr "Quoted") [leaf "paragraph" "x"]] "Child" 0
  = Ok {[ "Child" := "Quoted" +:+ Py.nl +:+ ">" +:+ Py.nl ]}
  /\ to_markdown_string plain_md default_config (S fuel)
       [leaf "paragraph" "x"] "Child" 0
     = Ok {[ "Child" := Py.nl +:+ "x" +:+ Py.nl +:+ Py.nl ]}
  /\ format_quote (Py.nl +:+ "x" +:+ Py.nl +:+ Py.nl)
     = ">" +:+ Py.nl +:+ "> x" +:+ Py.nl +:+ ">" +:+ Py.nl +:+ ">"
  /\ to_markdown_string plain_md default_config (S (S fuel))
       [mkMdBlock "quote" "q" (FStr "Quoted") [leaf "paragraph" "x"]] "parent" 0
     = Ok {[ "parent" := "Quoted" +:+ Py.nl
                         +:+ ">" +:+ Py.nl +:+ "> x" +:+ Py.nl +:+ ">" +:+ Py.nl +:+ ">"
                         +:+ Py.nl ]}.
Proof.
  split; [| split; [| split]].
  - apply (to_markdown_string_mono _ _ 2); [lia | vm_compute; reflexivity].
  - apply (to_markdown_string_mono _ _ 1); [lia | vm_compute; reflexivity].
  - vm_compute. reflexivity.
  - apply (to_markdown_string_mono _ _ 2); [lia | vm_compute; reflexivity].
Qed.

(** ** C7: the own fragment of a node *)

(** C7, as stated, fails on its example: the nodes of a paragraph "Hello"
    and of a rule, assembled as a root page, give the root entry with one
    leading newline, not two. *)
Lemma C7_counterexample :
  to_markdown_string plain_md default_config 1
    [leaf "paragraph" "Hello"; leaf "divider" "---"] "parent" 0
  = Ok {[ "parent" := Py.nl +:+ "Hello" +:+ Py.nl +:+ Py.nl
                      +:+ Py.nl +:+ "---" +:+ Py.nl +:+ Py.nl ]}
  /\ Py.nl +:+ "Hello" +:+ Py.nl +:+ Py.nl +:+ Py.nl +:+ "---" +:+ Py.nl +:+ Py.nl
     <> Py.nl +:+ Py.nl +:+ "Hello" +:+ Py.nl +:+ Py.nl
        +:+ Py.nl +:+ "---" +:+ Py.nl +:+ Py.nl.
Proof. split; [vm_compute; reflexivity | discriminate]. Qed.

(** C7 (amended): for every node whose own fragment is a non-empty string
    and whose type is not toggle or child_page, the own-fragment phase
    appends to the current document, for the types to_do,
    bulleted_list_item, numbered_list_item and quote, the fragment indented
    by the formatter for the nesting level and one newline, and for every
    other type a newline, the fragment indented likewise and two newlines;
    with a formatter that indents as the specification says, the
    indentation leads the fragment and is proportional to the nesting level
    (the formatter's unit once per level); a node without children does
    nothing else.  With a formatter that leaves text at level 0 as it is,
    the nodes of a paragraph "Hello" followed by a rule "---", assembled as
    a root page, yield the single entry "parent" with the text newline,
    Hello, three newlines, ---, two newlines: one leading newline, the
    paragraph before the rule. *)
Theorem C7_own_fragment_layout (fmt : md.formatter) (config : ConfigurationOptions)
    (recur : list MdBlock -> string -> Z -> result (gmap string string))
    (block : MdBlock) (text pid unit : string) (lvl : Z)
    (md_output : gmap string string) (fuel : nat) :
  md_parent block = FStr text ->
  text <> "" ->
  Py.mem (md_type block) ["toggle"; "child_page"] = false ->
  own_fragment fmt block pid lvl md_output
  = Ok (<[pid := get_or_empty md_output pid
                 +:+ (if Py.mem (md_type block)
                           ["to_do"; "bulleted_list_item"; "numbered_list_item"; "quote"]
                      then md.add_tab_space fmt text lvl +:+ Py.nl
                      else Py.nl +:+ md.add_tab_space fmt text lvl
                           +:+ Py.nl +:+ Py.nl)]> md_output)
  /\ ((forall s n, md.add_tab_space fmt s n = md.add_tab_space_spec unit s n) ->
      md.add_tab_space fmt text lvl = md.indentation unit (Z.to_nat lvl) +:+ text
      /\ String.length (md.indentation unit (Z.to_nat lvl))
         = (Z.to_nat lvl * String.length unit)%nat)
  /\ (md_children block = [] ->
      process_block fmt config recur block pid lvl md_output
      = own_fragment fmt block pid lvl md_output)
  /\ ((forall s, md.add_tab_space fmt s 0 = s) ->
      to_markdown_string fmt config (S fuel)
        [leaf "paragraph" "Hello"; leaf "divider" "---"] "parent" 0
      = Ok {[ "parent" := Py.nl +:+ "Hello" +:+ Py.nl +:+ Py.nl
                          +:+ Py.nl +:+ "---" +:+ Py.nl +:+ Py.nl ]}).
Proof.
  intros Hp Ht Hty. split; [| split; [| split]].
  - exact (own_fragment_text fmt block text pid lvl md_output Hp Ht Hty).
  - intros Hspec. split; [now rewrite Hspec | apply indentation_length].
  - intros Hc. now apply process_leaf.
  - intros H0. now apply hello_rule_document.
Qed.

Lemma C7_own_fragment_layout_witness :
  own_fragment plain_md (leaf "bulleted_list_item" "- item") "parent" 2 ∅
  = Ok {[ "parent" := tab +:+ tab +:+ "- item" +:+ Py.nl ]}
  /\ String.length (md.indentation tab 2) = (2 * String.length tab)%nat
  /\ own_fragment plain_md (leaf "paragraph" "Hello") "parent" 0 ∅
     = Ok {[ "parent" := Py.nl +:+ "Hello" +:+ Py.nl +:+ Py.nl ]}.
Proof.
  split; [| split].
  - destruct (C7_own_fragment_layout plain_md default_config
                (to_markdown_string plain_md default_config 0)
                (leaf "bulleted_list_item" "- item") "- item" "parent" tab 2 ∅ 0)
      as (H & _ & _ & _).
    + reflexivity.
    + discriminate.
    + reflexivity.
    + rewrite H. vm_compute. reflexivity.
  - destruct (C7_own_fragment_layout plain_md default_config
                (to_markdown_string plain_md default_config 0)
                (leaf "bulleted_list_item" "- item") "- item" "parent" tab 2 ∅ 0)
      as (_ & H & _ & _).
    + reflexivity.
    + discriminate.
    + reflexivity.
    + now apply H.
  - destruct (C7_own_fragment_layout plain_md default_config
                (to_markdown_string plain_md default_config 0)
                (leaf "paragraph" "Hello") "Hello" "parent" tab 0 ∅ 0)
      as (H & _ & _ & _).
    + reflexivity.
    + discriminate.
    + reflexivity.
    + rewrite H. vm_compute. reflexivity.
Defined.

(** ** C8: omitted blocks *)

(** C8: for every input block list, the tree builder behaves as if the blocks
    of type unsupported, and the child pages when [parse_child_pages] is
    false, were not in the list: it returns the same nodes, makes the same
    fetches and render calls and raises the same errors; and no node it
    builds, at any depth, is of such a type. *)
Theorem C8_omitted_blocks (fmt : md.formatter) (self : NotionToMarkdown)
    (fuel : nat) (blocks : list Block) (total_pages : option Z)
    (md_blocks : option (list MdBlock)) (tr : list event) :
  blocks_to_markdown fmt self fuel (Some blocks) total_pages md_blocks tr
  = blocks_to_markdown fmt self fuel
      (Some (List.filter (fun block => negb (omitted self block)) blocks))
      total_pages md_blocks tr
  /\ forall nodes same tr',
       blocks_to_markdown fmt self fuel (Some blocks) total_pages None tr
       = (Ok (nodes, same), tr') ->
       forallb (every_node (node_kept self)) nodes = true.
Proof.
  split.
  - apply blocks_to_markdown_filter.
  - intros nodes same tr' H.
    exact (blocks_to_markdown_kept fmt self fuel _ _ _ _ _ _ _ H eq_refl).
Qed.

(** ** C9: append-only documents *)

(** C9 (code at the failing input).  With [separate_child_page = true] and
    two child pages of the same title "Notes", within any budget that allows
    the nested call, the entry "Notes" holds the first page's text after the
    first node and the second page's text after the second: the text was
    replaced, it is no extension of what was there. *)
Theorem C9_split_page_replaces_entry (fuel : nat) :
  document
    (to_markdown_string plain_md split_config (S (S fuel))
       [mkMdBlock "child_page" "c1" (FStr "Notes") [leaf "paragraph" "a"]]
       "parent" 0) "Notes"
  = Some (Py.nl +:+ "a" +:+ Py.nl +:+ Py.nl)
  /\ document
       (to_markdown_string plain_md split_config (S (S fuel))
          [mkMdBlock "child_page" "c1" (FStr "Notes") [leaf "paragraph" "a"];
           mkMdBlock "child_page" "c2" (FStr "Notes") [leaf "paragraph" "b"]]
          "parent" 0) "Notes"
     = Some (Py.nl +:+ "b" +:+ Py.nl +:+ Py.nl)
  /\ String.prefix (Py.nl +:+ "a" +:+ Py.nl +:+ Py.nl)
       (Py.nl +:+ "b" +:+ Py.nl +:+ Py.nl) = false.
Proof.
  split; [| split].
  - apply (document_mono _ _ 2); [lia | vm_compute; reflexivity].
  - apply (document_mono _ _ 2); [lia | vm_compute; reflexivity].
  - vm_compute. reflexivity.
Qed.

(** ** C10: a type that is a key of the registry *)

(** C10: for every block whose type is a key of the custom-transformer
    registry, whatever the value stored, the loop of the tree builder does not
    depend on the recursive call (it is not made) and a node it appends has
    an empty children list; [block_to_markdown] calls the stored value only
    when it is a transformer, and for a [None] entry it does what it does for
    an unregistered type: the default rendering. *)
Theorem C10_registry_key (fmt : md.formatter) (self : NotionToMarkdown)
    (block : Block) (ty : string) :
  b_type block = Some ty ->
  is_Some (custom_transformers self !! ty) ->
  (forall recur recur' total_pages md_blocks tr,
      build_block fmt self recur total_pages block md_blocks tr
      = build_block fmt self recur' total_pages block md_blocks tr)
  /\ (forall recur total_pages md_blocks tr md_blocks' tr',
        build_block fmt self recur total_pages block md_blocks tr
        = (Ok md_blocks', tr') ->
        md_blocks' = md_blocks
        \/ exists node, md_blocks' = md_blocks ++ [node]
                        /\ md_type node = ty /\ md_children node = [])
  /\ (custom_transformers self !! ty = Some None ->
      forall tr,
        block_to_markdown fmt self block tr
        = if Py.mem ty VALID_BLOCK_TYPES then render_default fmt self block ty tr
          else (Raise (ValueError ("Invalid block type: " +:+ ty)), tr))
  /\ (forall transformer,
        custom_transformers self !! ty = Some (Some transformer) ->
        Py.mem ty VALID_BLOCK_TYPES = true ->
        forall tr,
          block_to_markdown fmt self block tr
          = match transformer block with
            | Ok r => (Ok (FStr (transformer_text r)), tr ++ [Transform ty])
            | Raise e => (Raise e, tr ++ [Transform ty])
            end).
Proof.
  intros Hty Hreg. split; [| split; [| split]].
  - intros. now apply (build_block_registered fmt self recur recur' total_pages block ty).
  - intros recur total_pages md_blocks tr md_blocks' tr'.
    now apply (build_block_registered_leaf fmt self recur total_pages block ty).
  - intros Hnone tr. now apply block_to_markdown_none_entry.
  - intros transformer Hsome Hv tr.
    destruct (transformer block) as [r | e] eqn:Er.
    + exact (block_to_markdown_transformer fmt self block ty transformer r tr
               Hty Hv Hsome Er).
    + unfold block_to_markdown. rewrite Hty; cbv beta iota. rewrite Hv; cbn [negb].
      rewrite Hsome. unfold mbind, M_bind, emit, lift. now rewrite Er.
Qed.

Lemma C10_registry_key_witness :
  block_to_markdown plain_md (set_custom_transformer bare "divider" None) rule []
  = (Ok (FStr "---"), []).
Proof.
  destruct (C10_registry_key plain_md (set_custom_transformer bare "divider" None)
              rule "divider") as (_ & _ & H & _).
  - reflexivity.
  - exists None. apply lookup_insert_eq.
  - rewrite H by apply lookup_insert_eq. vm_compute. reflexivity.
Defined.

(** * Further properties *)

(** ** The block renderer *)

Section RendererFacts.

Context (fmt : md.formatter) (self : NotionToMarkdown).

Lemma render_default_rule (block : Block) (ty : string) (tr : list event) :
  Py.mem ty ["divider"; "table_of_contents"; "breadcrumb"] = true ->
  render_default fmt self block ty tr = (Ok (FStr (md.divider fmt)), tr).
Proof.
  intros H. apply mem_true in H.
  repeat (apply elem_of_cons in H as [-> | H]; [reflexivity |]).
  now apply elem_of_nil in H.
Qed.

End RendererFacts.

(** X1: a divider, a table of contents and a breadcrumb are rendered as the
    same horizontal rule, whatever their payload (a missing one included),
    with no call to a collaborator, unless a custom transformer is in force
    for the type. *)
Theorem X1_horizontal_rule (fmt : md.formatter) (self : NotionToMarkdown)
    (block : Block) (ty : string) (tr : list event) :
  b_type block = Some ty ->
  Py.mem ty ["divider"; "table_of_contents"; "breadcrumb"] = true ->
  (forall f, custom_transformers self !! ty <> Some (Some f)) ->
  block_to_markdown fmt self block tr = (Ok (FStr (md.divider fmt)), tr).
Proof.
  intros Hty Hrule Hreg.
  assert (Hv : Py.mem ty VALID_BLOCK_TYPES = true).
  { apply mem_true in Hrule.
    repeat (apply elem_of_cons in Hrule as [-> | Hrule]; [reflexivity |]).
    now apply elem_of_nil in Hrule. }
  rewrite (block_to_markdown_default fmt self block ty Hty Hv Hreg).
  now apply render_default_rule.
Qed.

Lemma X1_horizontal_rule_witness :
  block_to_markdown plain_md bare
    {| b_id := None; b_type := Some "breadcrumb"; b_has_children := false;
       b_payload := None |} []
  = (Ok (FStr "---"), []).
Proof.
  apply (X1_horizontal_rule plain_md bare _ "breadcrumb" []).
  - reflexivity.
  - reflexivity.
  - intros f H. vm_compute in H. discriminate H.
Defined.

(** Case analysis of a run of the monad kept in hypothesis [H]. *)
Ltac walk H :=
  unfold mbind, M_bind, lift, mret, M_ret, emit, raise, item in H;
  repeat (cbv beta iota in H;
          match type of H with
          | context [if ?c then _ else _] => destruct c eqn:?
          | context [match ?x with Ok _ => _ | Raise _ => _ end] => destruct x eqn:?
          | context [match ?x with Some _ => _ | None => _ end] => destruct x eqn:?
          end).

Section RendererCalls.

Context (fmt : md.formatter) (self : NotionToMarkdown).

Lemma render_default_calls (block : Block) (ty : string) (tr tr' : list event)
    (r : result Fragment) :
  render_default fmt self block ty tr = (r, tr') ->
  ty <> "synced_block" ->
  tr' = tr \/ exists alt url, ty = "image" /\ tr' = tr ++ [Image alt url].
Proof.
  intros H Hty. unfold render_default in H.
  destruct (String.eqb ty "synced_block") eqn:Es;
    [apply String.eqb_eq in Es; contradiction |].
  destruct (String.eqb ty "image") eqn:Ei.
  - apply String.eqb_eq in Ei. subst ty.
    replace (Py.mem "image" TEXT_BLOCK_TYPES) with false in H by reflexivity.
    cbn [String.eqb] in H.
    change (String.eqb "image" "code") with false in H.
    change (String.eqb "image" "equation") with false in H.
    change (String.eqb "image" "divider") with false in H.
    change (String.eqb "image" "image") with true in H.
    walk H; injection H as <- <-; eauto.
  - walk H; try (injection H as <- <-; now left); congruence.
Qed.

End RendererCalls.

Section RendererFragment.

Context (fmt : md.formatter) (self : NotionToMarkdown).

Lemma handle_synced_block_plain (block : Block) (depth : Z) (tr tr' : list event)
    (f : Fragment) :
  handle_synced_block fmt self block depth tr = (Ok f, tr') ->
  f = FStr "" \/ f = FDoc ∅.
Proof.
  unfold handle_synced_block. intros H.
  destruct (3 <? depth); [injection H as <- _; now left |].
  destruct (p_synced_from _) as [[[block_id |]] |];
    try (injection H as <- _; now left).
  destruct (Py.nonempty block_id); [| injection H as <- _; now left].
  unfold get_block_children, mbind, M_bind, emit, lift in H.
  destruct (notion_client self block_id None) as [original_blocks | e];
    [| discriminate].
  unfold to_markdown_string in H. rewrite raw_blocks_assemble in H.
  injection H as <- _. now right.
Qed.

Lemma render_default_plain (block : Block) (ty : string) (tr tr' : list event)
    (f : Fragment) :
  render_default fmt self block ty tr = (Ok f, tr') ->
  (exists s, f = FStr s) \/ f = FDoc ∅.
Proof.
  intros H. unfold render_default in H.
  walk H;
    try (injection H as <- _; left; now eexists);
    try discriminate.
  all: apply handle_synced_block_plain in H as [-> | ->];
    [left; now eexists | now right].
Qed.

Lemma block_to_markdown_plain (block : Block) (tr tr' : list event) (f : Fragment) :
  block_to_markdown fmt self block tr = (Ok f, tr') ->
  (exists s, f = FStr s) \/ f = FDoc ∅.
Proof.
  unfold block_to_markdown. intros H.
  destruct (b_type block) as [ty |]; [| injection H as <- _; left; now eexists].
  destruct (Py.mem ty VALID_BLOCK_TYPES); cbn [negb] in H; [| discriminate].
  destruct (custom_transformers self !! ty) as [[transformer |] |];
    try exact (render_default_plain block ty tr tr' f H).
  unfold mbind, M_bind, emit, lift in H.
  destruct (transformer block) as [[s | b |] | e];
    try discriminate; injection H as <- _; left; now eexists.
Qed.

End RendererFragment.

(** X2: rendering a block that is not a synced block never fetches and never
    logs a warning: it calls nothing, or the custom transformer registered for
    the type, or (for an image) the image formatter, once. *)
Theorem X2_render_calls (fmt : md.formatter) (self : NotionToMarkdown)
    (block : Block) (tr tr' : list event) (r : result Fragment) :
  block_to_markdown fmt self block tr = (r, tr') ->
  b_type block <> Some "synced_block" ->
  tr' = tr
  \/ (exists ty, b_type block = Some ty /\ tr' = tr ++ [Transform ty])
  \/ (exists alt url, b_type block = Some "image" /\ tr' = tr ++ [Image alt url]).
Proof.
  unfold block_to_markdown. intros H Hty.
  destruct (b_type block) as [ty |]; [| injection H as <- <-; now left].
  destruct (Py.mem ty VALID_BLOCK_TYPES); cbn [negb] in H;
    [| injection H as <- <-; now left].
  destruct (custom_transformers self !! ty) as [[transformer |] |].
  - right. left. exists ty. split; [reflexivity |].
    unfold mbind, M_bind, emit, lift in H.
    destruct (transformer block) as [[s | b |] | e]; now injection H as <- <-.
  - assert (Hne : ty <> "synced_block") by congruence.
    destruct (render_default_calls fmt self block ty tr tr' r H Hne)
      as [-> | (alt & url & -> & ->)]; eauto 6.
  - assert (Hne : ty <> "synced_block") by congruence.
    destruct (render_default_calls fmt self block ty tr tr' r H Hne)
      as [-> | (alt & url & -> & ->)]; eauto 6.
Qed.

Lemma X2_render_calls_witness :
  block_to_markdown plain_md bare (block_of_type "image") []
  = (Ok (FStr "![caption](https://f)"), [Image "caption" "https://f"])
  /\ exists alt url, [Image "caption" "https://f"] = [] ++ [Image alt url].
Proof.
  split; [vm_compute; reflexivity |].
  destruct (X2_render_calls plain_md bare (block_of_type "image") []
              [Image "caption" "https://f"] (Ok (FStr "![caption](https://f)")))
    as [H | [(ty & _ & H) | (alt & url & _ & H)]].
  - vm_compute. reflexivity.
  - discriminate.
  - discriminate H.
  - discriminate H.
  - now exists alt, url.
Defined.

(** ** Synced blocks *)

(** X3: a synced block resolved beyond depth 3, or one that names no source
    (no [synced_from], or a missing or empty [block_id]), yields the empty
    string after one warning and without any fetch. *)
Theorem X3_synced_block_without_source (fmt : md.formatter) (self : NotionToMarkdown)
    (block : Block) (depth : Z) (tr : list event) :
  3 < depth \/ no_source block = true ->
  exists msg,
    handle_synced_block fmt self block depth tr = (Ok (FStr ""), tr ++ [Warning msg]).
Proof.
  intros H. unfold handle_synced_block.
  destruct (3 <? depth) eqn:Ed; [now eexists |].
  destruct H as [H | H]; [apply Z.ltb_lt in H; congruence |].
  unfold no_source in H.
  destruct (p_synced_from _) as [[[block_id |]] |]; try now eexists.
  apply negb_true_iff in H. rewrite H. now eexists.
Qed.

Lemma X3_synced_block_without_source_witness :
  exists msg,
    handle_synced_block plain_md bare (block_of_type "synced_block") 0 []
    = (Ok (FStr ""), [] ++ [Warning msg]).
Proof.
  apply (X3_synced_block_without_source plain_md bare
           (block_of_type "synced_block") 0 []).
  right. reflexivity.
Defined.



(** ** The registry of custom transformers *)

(** X5: registering a transformer for one type leaves the rendering of every
    block of another type (or with no type) as it was, and a later
    registration for the same type replaces the earlier one. *)
Theorem X5_registration_frame (fmt : md.formatter) (self : NotionToMarkdown)
    (ty : string) (t t' : option CustomTransformer) (block : Block)
    (tr : list event) :
  b_type block <> Some ty ->
  block_to_markdown fmt (set_custom_transformer self ty t) block tr
  = block_to_markdown fmt self block tr
  /\ set_custom_transformer (set_custom_transformer self ty t) ty t'
     = set_custom_transformer self ty t'.
Proof.
  intros Hty. split.
  - unfold block_to_markdown. destruct (b_type block) as [ty' |]; [| reflexivity].
    destruct (Py.mem ty' VALID_BLOCK_TYPES); [| reflexivity]. cbn [negb].
    cbn [set_custom_transformer custom_transformers].
    rewrite lookup_insert_ne by congruence.
    destruct (custom_transformers self !! ty') as [[f |] |]; reflexivity.
  - unfold set_custom_transformer. cbn [custom_transformers notion_client config].
    now rewrite insert_insert_eq.
Qed.

Lemma X5_registration_frame_witness :
  block_to_markdown plain_md
    (set_custom_transformer bare "paragraph" (Some (const_transformer "X")))
    rule []
  = (Ok (FStr "---"), []).
Proof.
  destruct (X5_registration_frame plain_md bare "paragraph"
              (Some (const_transformer "X")) None rule []) as [H _].
  - discriminate.
  - rewrite H. vm_compute. reflexivity.
Defined.

(** ** The tree builder *)

Section BuilderShape.

Context (fmt : md.formatter) (self : NotionToMarkdown).

Lemma new_node_fields (block : Block) (ty : string) (tr tr' : list event)
    (node : MdBlock) :
  new_node fmt self block ty tr = (Ok node, tr') ->
  md_type node = ty /\ b_id block = Some (md_block_id node)
  /\ md_children node = [] /\ plain_fragment node = true.
Proof.
  unfold new_node, mbind, M_bind, lift, mret, M_ret.
  destruct (b_id block) as [id |]; [| discriminate]. cbn [item].
  destruct (block_to_markdown fmt self block tr) as [[parent | e] tr1] eqn:Eb;
    [| discriminate].
  intros [= <- <-]. repeat split. unfold plain_fragment. cbn [md_parent].
  destruct (block_to_markdown_plain fmt self block tr tr1 parent Eb) as [[s ->] | ->];
    [reflexivity | now apply bool_decide_eq_true_2].
Qed.

Lemma build_block_shape (fuel : nat) (total_pages : option Z) (block : Block)
    (md_blocks md_blocks' : list MdBlock) (tr tr' : list event) :
  build_block fmt self (blocks_to_markdown fmt self fuel) total_pages block
    md_blocks tr = (Ok md_blocks', tr') ->
  (omitted self block = true /\ md_blocks' = md_blocks)
  \/ (omitted self block = false
      /\ exists node, md_blocks' = md_blocks ++ [node]
                      /\ b_type block = Some (md_type node)
                      /\ b_id block = Some (md_block_id node)
                      /\ md_children node = []
                      /\ plain_fragment node = true).
Proof.
  destruct (b_type block) as [ty |] eqn:Hty;
    [| unfold build_block; rewrite Hty; discriminate].
  rewrite (build_block_typed _ _ _ _ _ ty) by exact Hty.
  unfold build_typed_block, omitted. rewrite Hty. fold (skipped self ty).
  destruct (skipped self ty); [intros [= <- <-]; now left |].
  intros H. right. split; [reflexivity |].
  destruct (b_has_children block).
  - unfold mbind at 1, M_bind at 1, lift at 1 in H.
    destruct (fetch_target block ty) as [block_id | e]; [| discriminate].
    unfold mbind at 1, M_bind at 1 in H.
    destruct (get_block_children self block_id total_pages tr)
      as [[child_blocks | e] tr1]; [| discriminate].
    unfold mbind at 1, M_bind at 1 in H.
    destruct (new_node fmt self block ty tr1) as [[node | e] tr2] eqn:En;
      [| discriminate].
    destruct (new_node_fields block ty tr1 tr2 node En) as (Hnty & Hid & Hch & Hpl).
    destruct (negb _).
    + unfold mbind, M_bind in H.
      destruct (blocks_to_markdown fmt self fuel (Some child_blocks) total_pages
                  (Some (md_children node)) tr2)
        as [[[built same] | e] tr3] eqn:Er; [| discriminate].
      apply blocks_to_markdown_same in Er. rewrite Hch in Er. cbn in Er. subst same.
      injection H as <- <-. eexists. split; [reflexivity |].
      unfold plain_fragment in *. cbn [md_type md_block_id md_children md_parent].
      now rewrite Hnty.
    + injection H as <- <-. exists node. now rewrite Hnty.
  - unfold mbind at 1, M_bind at 1 in H.
    destruct (new_node fmt self block ty tr) as [[node | e] tr2] eqn:En;
      [| discriminate].
    destruct (new_node_fields block ty tr tr2 node En) as (Hnty & Hid & Hch & Hpl).
    injection H as <- <-. exists node. now rewrite Hnty.
Qed.

Lemma build_loop_shape (fuel : nat) (total_pages : option Z) (blocks : list Block)
    (md_blocks md_blocks' : list MdBlock) (tr tr' : list event) :
  build_loop fmt self (blocks_to_markdown fmt self fuel) total_pages blocks
    md_blocks tr = (Ok md_blocks', tr') ->
  exists new,
    md_blocks' = md_blocks ++ new
    /\ map (fun node => Some (md_type node)) new = map b_type (kept_blocks self blocks)
    /\ map (fun node => Some (md_block_id node)) new
       = map b_id (kept_blocks self blocks)
    /\ Forall (fun node => md_children node = [] /\ plain_fragment node = true) new.
Proof.
  revert md_blocks tr. induction blocks as [| b rest IH]; intros md_blocks tr.
  - intros [= <- <-]. exists []. rewrite app_nil_r. repeat split. constructor.
  - cbn [build_loop]. unfold mbind, M_bind.
    destruct (build_block _ _ _ _ _ _ _) as [[md_blocks1 | e] tr1] eqn:Eb;
      [| discriminate].
    intros Hl. destruct (IH _ _ Hl) as (new & -> & Hty & Hid & Hch).
    unfold kept_blocks in *. cbn [List.filter].
    destruct (build_block_shape _ _ _ _ _ _ _ Eb)
      as [[Hom ->] | (Hom & node & -> & Hnty & Hnid & Hnch & Hnpl)];
      rewrite Hom; cbn [negb].
    + now exists new.
    + exists (node :: new). rewrite <- app_assoc. cbn [map app].
      rewrite Hty, Hid, Hnty, Hnid. repeat split. now constructor.
Qed.

Lemma blocks_to_markdown_shape (fuel : nat) (blocks : list Block)
    (total_pages : option Z) (md_blocks : option (list MdBlock))
    (tr tr' : list event) (nodes : list MdBlock) (same : bool) :
  blocks_to_markdown fmt self fuel (Some blocks) total_pages md_blocks tr
  = (Ok (nodes, same), tr') ->
  exists new,
    nodes = (or_new md_blocks).1 ++ new
    /\ map (fun node => Some (md_type node)) new = map b_type (kept_blocks self blocks)
    /\ map (fun node => Some (md_block_id node)) new
       = map b_id (kept_blocks self blocks)
    /\ Forall (fun node => md_children node = [] /\ plain_fragment node = true) new.
Proof.
  destruct fuel as [| fuel]; [discriminate |]. cbn [blocks_to_markdown].
  destruct blocks as [| b rest].
  - unfold mret, M_ret. intros [= H _]. exists []. rewrite app_nil_r, H.
    repeat split. constructor.
  - unfold mbind, M_bind.
    destruct (build_loop _ _ _ _ _ _ _) as [[r | e] tr1] eqn:El; [| discriminate].
    intros [= <- _ _]. exact (build_loop_shape _ _ _ _ _ _ _ El).
Qed.

End BuilderShape.

(** X6: no node that the tree builder returns has children.  The list
    handed to the recursive call is the new node's empty [children] list, for
    which [md_blocks or []] is a new list: the nodes built from the fetched
    children go to that list and the return value is dropped. *)
Theorem X6_builder_keeps_no_children (fmt : md.formatter) (self : NotionToMarkdown)
    (fuel : nat) (blocks : list Block) (total_pages : option Z)
    (md_blocks : option (list MdBlock)) (tr tr' : list event)
    (nodes : list MdBlock) (same : bool) :
  blocks_to_markdown fmt self fuel (Some blocks) total_pages md_blocks tr
  = (Ok (nodes, same), tr') ->
  exists new,
    nodes = (or_new md_blocks).1 ++ new
    /\ Forall (fun node => md_children node = []) new.
Proof.
  intros H.
  destruct (blocks_to_markdown_shape fmt self fuel blocks total_pages md_blocks
              tr tr' nodes same H) as (new & Hn & _ & _ & Hch).
  exists new. split; [exact Hn |].
  eapply Forall_impl; [exact Hch |]. now intros node [Hc _].
Qed.

Lemma X6_builder_keeps_no_children_witness :
  blocks_to_markdown plain_md Sample.site 2
    (Some [Sample.toggle_block; rule]) None None []
  = (Ok ([mkMdBlock "toggle" "t1" (FStr "$x$") [];
          mkMdBlock "divider" "b2" (FStr "---") []], false),
     [Fetch "t1" None])
  /\ exists new,
       [mkMdBlock "toggle" "t1" (FStr "$x$") [];
        mkMdBlock "divider" "b2" (FStr "---") []] = [] ++ new
       /\ Forall (fun node => md_children node = []) new.
Proof.
  split; [vm_compute; reflexivity |].
  apply (X6_builder_keeps_no_children plain_md Sample.site 2
           [Sample.toggle_block; rule] None None [] [Fetch "t1" None] _ false).
  vm_compute. reflexivity.
Defined.

(** X7: when the tree builder returns, it has appended one node per block
    that it does not omit, in the order of the blocks, each with the type and
    the id of its block. *)
Theorem X7_builder_one_node_per_block (fmt : md.formatter) (self : NotionToMarkdown)
    (fuel : nat) (blocks : list Block) (total_pages : option Z)
    (md_blocks : option (list MdBlock)) (tr tr' : list event)
    (nodes : list MdBlock) (same : bool) :
  blocks_to_markdown fmt self fuel (Some blocks) total_pages md_blocks tr
  = (Ok (nodes, same), tr') ->
  exists new,
    nodes = (or_new md_blocks).1 ++ new
    /\ map (fun node => Some (md_type node)) new = map b_type (kept_blocks self blocks)
    /\ map (fun node => Some (md_block_id node)) new
       = map b_id (kept_blocks self blocks).
Proof.
  intros H.
  destruct (blocks_to_markdown_shape fmt self fuel blocks total_pages md_blocks
              tr tr' nodes same H) as (new & Hn & Hty & Hid & _).
  now exists new.
Qed.

Lemma X7_builder_one_node_per_block_witness :
  exists new,
    [mkMdBlock "code" "b3" (FStr ("```python" +:+ Py.nl +:+ Py.nl +:+ "```")) [];
     mkMdBlock "divider" "b2" (FStr "---") []] = [] ++ new
    /\ map (fun node => Some (md_type node)) new
       = [Some "code"; Some "divider"]
    /\ map (fun node => Some (md_block_id node)) new = [Some "b3"; Some "b2"].
Proof.
  apply (X7_builder_one_node_per_block plain_md bare 1
           [Sample.snippet; block_of_type "unsupported"; rule] None None [] [] _ false).
  vm_compute. reflexivity.
Defined.

Section BuilderErrors.

Context (fmt : md.formatter) (self : NotionToMarkdown).

Lemma build_loop_raises recur (total_pages : option Z) (blocks : list Block)
    (block : Block) (md_blocks : list MdBlock) (tr : list event) :
  block ∈ blocks ->
  (forall md_blocks tr, exists e tr',
      build_block fmt self recur total_pages block md_blocks tr = (Raise e, tr')) ->
  exists e tr',
    build_loop fmt self recur total_pages blocks md_blocks tr = (Raise e, tr').
Proof.
  intros Hin Hb. revert md_blocks tr.
  induction blocks as [| b rest IH]; intros md_blocks tr.
  - now apply elem_of_nil in Hin.
  - cbn [build_loop]. unfold mbind, M_bind.
    apply elem_of_cons in Hin as [<- | Hin].
    + destruct (Hb md_blocks tr) as (e & tr' & ->). eauto.
    + destruct (build_block fmt self recur total_pages b md_blocks tr)
        as [[md_blocks' | e] tr']; [| now eauto].
      now apply IH.
Qed.

Lemma build_block_without_key recur (total_pages : option Z) (block : Block)
    (md_blocks : list MdBlock) (tr : list event) :
  b_type block = None \/ (omitted self block = false /\ b_id block = None) ->
  exists e tr',
    build_block fmt self recur total_pages block md_blocks tr = (Raise e, tr').
Proof.
  intros [Hty | [Hom Hid]].
  - unfold build_block. rewrite Hty. now eexists _, _.
  - destruct (b_type block) as [ty |] eqn:Hty;
      [| unfold build_block; rewrite Hty; now eexists _, _].
    rewrite (build_block_typed _ _ _ _ _ ty) by exact Hty.
    unfold build_typed_block. unfold omitted in Hom. rewrite Hty in Hom.
    fold (skipped self ty) in Hom. rewrite Hom.
    assert (Hnode : forall tr, exists e tr',
               new_node fmt self block ty tr = (Raise e, tr')).
    { intros tr0. unfold new_node. rewrite Hid. now eexists _, _. }
    destruct (b_has_children block).
    + unfold mbind at 1, M_bind at 1, lift at 1.
      destruct (fetch_target block ty) as [block_id | e]; [| now eauto].
      unfold mbind at 1, M_bind at 1.
      destruct (get_block_children self block_id total_pages tr)
        as [[child_blocks | e] tr1]; [| now eauto].
      unfold mbind at 1, M_bind at 1.
      destruct (Hnode tr1) as (e & tr2 & ->). eauto.
    + unfold mbind at 1, M_bind at 1.
      destruct (Hnode tr) as (e & tr2 & ->). eauto.
Qed.

End BuilderErrors.

(** X8: a block without a ["type"] key is rendered by [block_to_markdown] as
    the empty string, but the tree builder reads [block["type"]] first: a list
    that holds such a block, or a block it does not omit that has no ["id"],
    makes the builder raise, and no node is returned; when the block without
    type is the first of the list, the error is the missing key, before any
    call. *)
Theorem X8_builder_missing_key (fmt : md.formatter) (self : NotionToMarkdown)
    (block : Block) (blocks : list Block) (fuel : nat) (total_pages : option Z)
    (md_blocks : option (list MdBlock)) (tr : list event) :
  block ∈ blocks ->
  b_type block = None \/ (omitted self block = false /\ b_id block = None) ->
  (exists e tr',
      blocks_to_markdown fmt self fuel (Some blocks) total_pages md_blocks tr
      = (Raise e, tr'))
  /\ (b_type block = None ->
      block_to_markdown fmt self block tr = (Ok (FStr ""), tr)
      /\ forall rest,
           blocks_to_markdown fmt self (S fuel) (Some (block :: rest)) total_pages
             md_blocks tr
           = (Raise (KeyError "type"), tr)).
Proof.
  intros Hin Hkey. split.
  - destruct fuel as [| fuel]; [now eexists _, _ |]. cbn [blocks_to_markdown].
    destruct blocks as [| b rest]; [now apply elem_of_nil in Hin |].
    unfold mbind, M_bind.
    destruct (build_loop_raises fmt self (blocks_to_markdown fmt self fuel)
                total_pages (b :: rest) block (or_new md_blocks).1 tr Hin)
      as (e & tr' & ->); [| now eauto].
    intros md tr0. now apply build_block_without_key.
  - intros Hty. split.
    + unfold block_to_markdown. now rewrite Hty.
    + intros rest. cbn [blocks_to_markdown build_loop].
      apply bind_raise. apply bind_raise. unfold build_block. now rewrite Hty.
Qed.

Lemma X8_builder_missing_key_witness :
  blocks_to_markdown plain_md bare 1
    (Some [{| b_id := Some "b0"; b_type := None; b_has_children := false;
              b_payload := None |}; rule]) None None []
  = (Raise (KeyError "type"), []).
Proof.
  destruct (X8_builder_missing_key plain_md bare
              {| b_id := Some "b0"; b_type := None; b_has_children := false;
                 b_payload := None |}
              [{| b_id := Some "b0"; b_type := None; b_has_children := false;
                  b_payload := None |}; rule] 0 None None [])
    as [_ H].
  - constructor.
  - left. reflexivity.
  - destruct (H eq_refl) as [_ H']. apply H'.
Defined.

(** ** The tree assembler *)

(** X9: with [separate_child_page = false] a pass writes to one document
    only: the map that [to_markdown_string] returns has no entry for any key
    but [page_identifier], however child pages, toggles and containers nest. *)
Theorem X9_inline_single_document (fmt : md.formatter) (config : ConfigurationOptions)
    (fuel : nat) (md_blocks : list MdBlock) (pid : string) (lvl : Z)
    (r : gmap string string) :
  separate_child_page config = false ->
  to_markdown_string fmt config fuel md_blocks pid lvl = Ok r ->
  forall key, key <> pid -> r !! key = None.
Proof.
  intros Hi Hr key Hkey.
  exact (to_markdown_string_other fmt config Hi fuel md_blocks pid lvl r Hr key Hkey).
Qed.

Lemma X9_inline_single_document_witness :
  to_markdown_string plain_md default_config 3 [Sample.item_with_page] "parent" 0
  = Ok {[ "parent" := "- item" +:+ Py.nl +:+ Py.nl +:+ "Child" +:+ Py.nl
                      +:+ Py.nl +:+ "x" +:+ Py.nl +:+ Py.nl ]}
  /\ ({[ "parent" := "- item" +:+ Py.nl +:+ Py.nl +:+ "Child" +:+ Py.nl
                      +:+ Py.nl +:+ "x" +:+ Py.nl +:+ Py.nl ]} : gmap string string)
     !! "Child" = None.
Proof.
  split; [vm_compute; reflexivity |].
  apply (X9_inline_single_document plain_md default_config 3
           [Sample.item_with_page] "parent" 0).
  - reflexivity.
  - vm_compute. reflexivity.
  - discriminate.
Defined.

(** X10: with [separate_child_page = false] a pass is append-only: the map
    for a list of nodes followed by more nodes keeps every document of the
    map for the first nodes and only adds text at its end. *)
Theorem X10_inline_append_only (fmt : md.formatter) (config : ConfigurationOptions)
    (fuel : nat) (pre post : list MdBlock) (pid : string) (lvl : Z)
    (r : gmap string string) :
  separate_child_page config = false ->
  to_markdown_string fmt config fuel (pre ++ post) pid lvl = Ok r ->
  exists r0,
    to_markdown_string fmt config fuel pre pid lvl = Ok r0 /\ extends r0 r.
Proof.
  destruct fuel as [| fuel]; [discriminate |].
  rewrite !to_markdown_string_S. intros Hi Hr. rewrite assemble_from_app in Hr.
  destruct (assemble_from fmt config _ pre pid lvl ∅) as [r0 | e]; [| discriminate].
  cbn [mbind result_bind] in Hr. exists r0. split; [reflexivity |].
  exact (assemble_from_extends fmt config _ post pid lvl r0 r Hi Hr).
Qed.

Lemma X10_inline_append_only_witness :
  exists r0,
    to_markdown_string plain_md default_config 1 [leaf "paragraph" "a"] "parent" 0
    = Ok r0
    /\ extends r0 {[ "parent" := Py.nl +:+ "a" +:+ Py.nl +:+ Py.nl
                                 +:+ "- b" +:+ Py.nl ]}.
Proof.
  apply (X10_inline_append_only plain_md default_config 1
           [leaf "paragraph" "a"] [leaf "bulleted_list_item" "- b"] "parent" 0).
  - reflexivity.
  - vm_compute. reflexivity.
Defined.

(** X11: a toggle or a child page without children adds nothing, whatever
    its fragment: taking the node out of the list does not change the result
    of the pass. *)
Theorem X11_childless_toggle_or_page (fmt : md.formatter)
    (config : ConfigurationOptions) (fuel : nat) (pre post : list MdBlock)
    (block : MdBlock) (pid : string) (lvl : Z) :
  md_children block = [] ->
  Py.mem (md_type block) ["toggle"; "child_page"] = true ->
  to_markdown_string fmt config fuel (pre ++ block :: post) pid lvl
  = to_markdown_string fmt config fuel (pre ++ post) pid lvl.
Proof.
  intros Hc Hty. destruct fuel as [| fuel]; [reflexivity |].
  rewrite !to_markdown_string_S, !assemble_from_app.
  destruct (assemble_from fmt config _ pre pid lvl ∅) as [r0 | e]; [| reflexivity].
  cbn [mbind result_bind assemble_from].
  rewrite (process_leaf fmt config _ block pid lvl r0 Hc).
  unfold own_fragment. rewrite Hty. now rewrite andb_false_r.
Qed.

Lemma X11_childless_toggle_or_page_witness :
  to_markdown_string plain_md default_config 1
    ([leaf "paragraph" "a"] ++ leaf "toggle" "Details" :: [leaf "paragraph" "b"])
    "parent" 0
  = to_markdown_string plain_md default_config 1
      ([leaf "paragraph" "a"] ++ [leaf "paragraph" "b"]) "parent" 0.
Proof.
  apply (X11_childless_toggle_or_page plain_md default_config 1
           [leaf "paragraph" "a"] [leaf "paragraph" "b"] (leaf "toggle" "Details")
           "parent" 0).
  - reflexivity.
  - reflexivity.
Defined.

(** X12: the children of a callout are never assembled: the node gives what
    the same node without children gives, its own fragment. *)
Theorem X12_callout_children_ignored (fmt : md.formatter)
    (config : ConfigurationOptions)
    (recur : list MdBlock -> string -> Z -> result (gmap string string))
    (bid : string) (parent : Fragment)
    (children : list MdBlock) (pid : string) (lvl : Z)
    (md_output : gmap string string) :
  process_block fmt config recur (mkMdBlock "callout" bid parent children) pid lvl
    md_output
  = own_fragment fmt (mkMdBlock "callout" bid parent []) pid lvl md_output.
Proof.
  rewrite process_block_eq.
  change (own_fragment fmt (mkMdBlock "callout" bid parent children) pid lvl md_output)
    with (own_fragment fmt (mkMdBlock "callout" bid parent []) pid lvl md_output).
  destruct (own_fragment fmt _ pid lvl md_output) as [m1 | e]; [| reflexivity].
  cbn [mbind result_bind]. unfold children_phase. cbn [md_children md_type].
  now destruct children.
Qed.

Section OtherDocuments.

Context (fmt : md.formatter) (config : ConfigurationOptions).

Lemma children_phase_other (block : MdBlock)
    (recur : string -> Z -> result (gmap string string)) (pid : string) (lvl : Z)
    (md_output r : gmap string string) (key : string) :
  Py.mem (md_type block) ["synced_block"; "column_list"; "column"; "child_page"]
  = false ->
  children_phase fmt config block recur pid lvl md_output = Ok r ->
  key <> pid ->
  r !! key = md_output !! key.
Proof.
  intros Hty Hr Hkey. unfold children_phase in Hr.
  destruct (md_children block) as [| c cs]; [now injection Hr as <- |].
  destruct (Py.mem (md_type block) ["synced_block"; "column_list"; "column"]) eqn:Ec.
  { apply mem_true in Ec. assert (Hin : md_type block ∈
      ["synced_block"; "column_list"; "column"; "child_page"]).
    { repeat (apply elem_of_cons in Ec as [-> | Ec];
              [apply mem_true; reflexivity |]).
      now apply elem_of_nil in Ec. }
    apply mem_true in Hin. congruence. }
  destruct (String.eqb (md_type block) "child_page") eqn:Ep.
  { apply String.eqb_eq in Ep. rewrite Ep in Hty. discriminate Hty. }
  destruct (String.eqb (md_type block) "toggle").
  { destruct (recur "parent" 0); [| discriminate]. cbn [mbind result_bind] in Hr.
    destruct (as_str (md_parent block)); [| discriminate]. injection Hr as <-.
    now rewrite lookup_append_to_ne, lookup_touch_ne. }
  destruct (String.eqb (md_type block) "quote").
  { destruct (recur pid lvl) as [md_str |]; [| discriminate]. injection Hr as <-.
    rewrite lookup_append_to_ne by exact Hkey.
    destruct (pick_entry pid md_str);
      now rewrite ?lookup_append_to_ne, lookup_touch_ne. }
  destruct (negb _); [| now injection Hr as <-].
  destruct (recur pid (lvl + 1)) as [md_str |]; [| discriminate].
  cbn [mbind result_bind] in Hr.
  destruct (pick_entry pid md_str); injection Hr as <-;
    now rewrite ?lookup_append_to_ne, lookup_touch_ne.
Qed.

End OtherDocuments.

(** X13: a node that is not a synced block, a column list, a column or a
    child page leaves every document but the current one as it was, in either
    mode: the documents that child pages below it split off are dropped. *)
Theorem X13_nested_documents_dropped (fmt : md.formatter)
    (config : ConfigurationOptions)
    (recur : list MdBlock -> string -> Z -> result (gmap string string))
    (block : MdBlock) (pid : string) (lvl : Z)
    (md_output r : gmap string string) :
  Py.mem (md_type block) ["synced_block"; "column_list"; "column"; "child_page"]
  = false ->
  process_block fmt config recur block pid lvl md_output = Ok r ->
  forall key, key <> pid -> r !! key = md_output !! key.
Proof.
  intros Hty Hr key Hkey. rewrite process_block_eq in Hr.
  destruct (own_fragment fmt block pid lvl md_output) as [m1 | e] eqn:Eown;
    [| discriminate].
  cbn [mbind result_bind] in Hr.
  rewrite <- (own_fragment_other fmt block pid lvl md_output m1 key Eown Hkey).
  exact (children_phase_other fmt config block _ pid lvl m1 r key Hty Hr Hkey).
Qed.

Lemma X13_nested_documents_dropped_witness :
  to_markdown_string plain_md split_config 2
    [mkMdBlock "child_page" "c" (FStr "Child") [leaf "paragraph" "x"]] "parent" 0
  = Ok {[ "Child" := Py.nl +:+ "x" +:+ Py.nl +:+ Py.nl ]}
  /\ process_block plain_md split_config (to_markdown_string plain_md split_config 2)
       Sample.item_with_page "parent" 0 ∅
     = Ok {[ "parent" := "- item" +:+ Py.nl ]}
  /\ ({[ "parent" := "- item" +:+ Py.nl ]} : gmap string string) !! "Child"
     = (∅ : gmap string string) !! "Child".
Proof.
  split; [vm_compute; reflexivity |]. split; [vm_compute; reflexivity |].
  apply (X13_nested_documents_dropped plain_md split_config
           (to_markdown_string plain_md split_config 2)
           Sample.item_with_page "parent" 0 ∅).
  - reflexivity.
  - vm_compute. reflexivity.
  - discriminate.
Defined.

(** X14: the nesting level does not reach the children of a synced block, a
    column list, a column, a child page, a toggle or a callout: whatever the
    level of the node, its children phase is the same (the children of the
    first five are assembled at level 0, those of a callout not at all). *)
Theorem X14_nesting_level_reset (fmt : md.formatter) (config : ConfigurationOptions)
    (block : MdBlock) (recur : string -> Z -> result (gmap string string))
    (pid : string) (lvl lvl' : Z) (md_output : gmap string string) :
  Py.mem (md_type block)
    ["synced_block"; "column_list"; "column"; "child_page"; "toggle"; "callout"]
  = true ->
  children_phase fmt config block recur pid lvl md_output
  = children_phase fmt config block recur pid lvl' md_output.
Proof.
  intros Hty. unfold children_phase. destruct (md_children block); [reflexivity |].
  apply mem_true in Hty.
  repeat (apply elem_of_cons in Hty as [-> | Hty]; [reflexivity |]).
  now apply elem_of_nil in Hty.
Qed.

Lemma X14_nesting_level_reset_witness :
  process_block plain_md default_config (to_markdown_string plain_md default_config 1)
    (mkMdBlock "column" "c" (FStr "") [leaf "bulleted_list_item" "- a"]) "parent" 3 ∅
  = Ok {[ "parent" := "- a" +:+ Py.nl ]}
  /\ children_phase plain_md default_config
       (mkMdBlock "column" "c" (FStr "") [leaf "bulleted_list_item" "- a"])
       (to_markdown_string plain_md default_config 1
            [leaf "bulleted_list_item" "- a"])
       "parent" 3 ∅
     = children_phase plain_md default_config
         (mkMdBlock "column" "c" (FStr "") [leaf "bulleted_list_item" "- a"])
         (to_markdown_string plain_md default_config 1
            [leaf "bulleted_list_item" "- a"])
         "parent" 0 ∅.
Proof.
  split; [vm_compute; reflexivity |].
  apply (X14_nesting_level_reset plain_md default_config).
  reflexivity.
Defined.

Section Branches.

Context (fmt : md.formatter) (config : ConfigurationOptions).
Context (recur : list MdBlock -> string -> Z -> result (gmap string string)).

Lemma toggle_children_phase (bid : string) (parent : Fragment)
    (children : list MdBlock) (pid : string) (lvl : Z) (summary : string)
    (md_output md_str : gmap string string) :
  children <> [] ->
  parent = FStr summary ->
  recur children "parent" 0 = Ok md_str ->
  children_phase fmt config (mkMdBlock "toggle" bid parent children)
    (recur children) pid lvl md_output
  = Ok (<[pid := get_or_empty md_output pid
                 +:+ md.toggle fmt summary (get_or_empty md_str "parent")]>
          md_output).
Proof.
  intros Hne -> Hrec. unfold children_phase. cbn [md_type md_children md_parent].
  destruct children as [| c cs]; [congruence |].
  replace (Py.mem "toggle" ["synced_block"; "column_list"; "column"])
    with false by reflexivity.
  replace (String.eqb "toggle" "child_page") with false by reflexivity.
  replace (String.eqb "toggle" "toggle") with true by reflexivity.
  rewrite Hrec. cbn [mbind result_bind as_str]. now rewrite append_to_touch.
Qed.

End Branches.

(** X15: a quote with children in the root document: after its own
    fragment, the text that the children assembled in the root document at the
    same nesting level is reflowed line by line (a quote marker and a space
    before each non-blank line, a bare marker for each blank one, surrounding
    whitespace stripped) and appended with one newline. *)
Theorem X15_quote_in_root (fmt : md.formatter) (config : ConfigurationOptions)
    (fuel : nat) (bid : string) (parent : Fragment) (children : list MdBlock)
    (lvl : Z) (md_output own md_str : gmap string string) (text : string) :
  children <> [] ->
  own_fragment fmt (mkMdBlock "quote" bid parent children) "parent" lvl md_output
  = Ok own ->
  to_markdown_string fmt config fuel children "parent" lvl = Ok md_str ->
  md_str !! "parent" = Some text ->
  process_block fmt config (to_markdown_string fmt config fuel)
    (mkMdBlock "quote" bid parent children) "parent" lvl md_output
  = Ok (<["parent" := get_or_empty own "parent" +:+ format_quote text +:+ Py.nl]>
          own).
Proof.
  intros Hne Hown Hrec Htext. rewrite process_block_eq, Hown.
  cbn [mbind result_bind md_children].
  exact (quote_children_root fmt config _ bid parent children lvl own md_str text
           Hne Hrec Htext).
Qed.

Lemma X15_quote_in_root_witness :
  process_block plain_md default_config (to_markdown_string plain_md default_config 1)
    (mkMdBlock "quote" "q" (FStr "Quoted") [leaf "paragraph" "x"]) "parent" 0 ∅
  = Ok {[ "parent" := "Quoted" +:+ Py.nl
                      +:+ ">" +:+ Py.nl +:+ "> x" +:+ Py.nl +:+ ">" +:+ Py.nl +:+ ">"
                      +:+ Py.nl ]}.
Proof.
  rewrite (X15_quote_in_root plain_md default_config 1 "q" (FStr "Quoted")
             [leaf "paragraph" "x"] 0 ∅ {[ "parent" := "Quoted" +:+ Py.nl ]}
             {[ "parent" := Py.nl +:+ "x" +:+ Py.nl +:+ Py.nl ]}
             (Py.nl +:+ "x" +:+ Py.nl +:+ Py.nl)).
  - vm_compute. reflexivity.
  - discriminate.
  - vm_compute. reflexivity.
  - vm_compute. reflexivity.
  - vm_compute. reflexivity.
Defined.

(** X16: a toggle with children appends to the current document, whatever
    that document and the nesting level are, the collapsible section made of
    its own fragment and of the text the children assemble as a root document
    at level 0; its own fragment is not appended on its own, and documents
    other than the root one in the children's result are left out. *)
Theorem X16_toggle_with_children (fmt : md.formatter) (config : ConfigurationOptions)
    (fuel : nat) (bid summary : string) (children : list MdBlock) (pid : string)
    (lvl : Z) (md_output md_str : gmap string string) :
  children <> [] ->
  to_markdown_string fmt config fuel children "parent" 0 = Ok md_str ->
  process_block fmt config (to_markdown_string fmt config fuel)
    (mkMdBlock "toggle" bid (FStr summary) children) pid lvl md_output
  = Ok (<[pid := get_or_empty md_output pid
                 +:+ md.toggle fmt summary (get_or_empty md_str "parent")]>
          md_output).
Proof.
  intros Hne Hrec. rewrite process_block_eq.
  unfold own_fragment. cbn [md_type md_parent md_children].
  replace (Py.mem "toggle" ["toggle"; "child_page"]) with true by reflexivity.
  rewrite andb_false_r. cbn [mbind result_bind].
  now apply toggle_children_phase.
Qed.

Lemma X16_toggle_with_children_witness :
  process_block plain_md default_config (to_markdown_string plain_md default_config 1)
    (mkMdBlock "toggle" "t" (FStr "More") [leaf "paragraph" "x"]) "Child" 4 ∅
  = Ok {[ "Child" := "<details><summary>More</summary>"
                     +:+ Py.nl +:+ "x" +:+ Py.nl +:+ Py.nl +:+ "</details>" ]}.
Proof.
  rewrite (X16_toggle_with_children plain_md default_config 1 "t" "More"
             [leaf "paragraph" "x"] "Child" 4 ∅
             {[ "parent" := Py.nl +:+ "x" +:+ Py.nl +:+ Py.nl ]}).
  - vm_compute. reflexivity.
  - discriminate.
  - vm_compute. reflexivity.
Defined.

(** ** Nodes without children *)

Section Leaves.

Context (fmt : md.formatter) (config : ConfigurationOptions).

Lemma append_nonempty_r (a b : string) : b <> "" -> a +:+ b <> "".
Proof. destruct a; [trivial | discriminate]. Qed.

Lemma own_layout_nonempty (ty text : string) (lvl : Z) :
  own_layout fmt ty text lvl <> "".
Proof.
  unfold own_layout. destruct (Py.mem ty _); [| discriminate].
  apply append_nonempty_r. discriminate.
Qed.

Lemma own_fragment_leaf_text (node : MdBlock) (pid : string) (lvl : Z)
    (md_output : gmap string string) :
  plain_fragment node = true ->
  own_fragment fmt node pid lvl md_output
  = Ok (if String.eqb (leaf_text fmt lvl node) "" then md_output
        else <[pid := get_or_empty md_output pid +:+ leaf_text fmt lvl node]>
               md_output).
Proof.
  unfold plain_fragment, leaf_text, own_fragment.
  destruct (md_parent node) as [text | m]; cbn [truthy as_str].
  - intros _.
    destruct (Py.nonempty text && negb (Py.mem (md_type node) ["toggle"; "child_page"]));
      [| reflexivity].
    cbn [mbind result_bind].
    replace (String.eqb (own_layout fmt (md_type node) text lvl) "") with false
      by (symmetry; apply String.eqb_neq, own_layout_nonempty).
    unfold own_layout.
    destruct (Py.mem (md_type node) ["to_do"; _; _; _]); cbn [negb];
      now rewrite append_to_touch.
  - intros H. rewrite H. reflexivity.
Qed.

Lemma assemble_leaves
    (recur : list MdBlock -> string -> Z -> result (gmap string string))
    (nodes : list MdBlock) (pid : string) (lvl : Z)
    (md_output : gmap string string) :
  Forall (fun node => md_children node = [] /\ plain_fragment node = true) nodes ->
  assemble_from fmt config recur nodes pid lvl md_output
  = Ok (if String.eqb (leaves_text fmt lvl nodes) "" then md_output
        else <[pid := get_or_empty md_output pid +:+ leaves_text fmt lvl nodes]>
               md_output).
Proof.
  intros Hall. revert md_output.
  induction Hall as [| node rest [Hc Hp] _ IH]; intros md_output; [reflexivity |].
  cbn [assemble_from leaves_text foldr]. fold (leaves_text fmt lvl rest).
  rewrite (process_leaf fmt config recur node pid lvl md_output Hc).
  rewrite (own_fragment_leaf_text node pid lvl md_output Hp).
  destruct (String.eqb (leaf_text fmt lvl node) "") eqn:Et.
  - apply String.eqb_eq in Et. rewrite Et. cbn [String.append]. apply IH.
  - rewrite IH. f_equal.
    replace (String.eqb (leaf_text fmt lvl node +:+ leaves_text fmt lvl rest) "")
      with false.
    2:{ symmetry. apply String.eqb_neq. apply String.eqb_neq in Et.
        destruct (leaf_text fmt lvl node); [congruence | discriminate]. }
    destruct (String.eqb (leaves_text fmt lvl rest) "") eqn:Er.
    + apply String.eqb_eq in Er. now rewrite Er, append_empty_r.
    + unfold get_or_empty at 1. rewrite lookup_insert_eq. cbn [default from_option id].
      rewrite insert_insert_eq. now rewrite append_assoc.
Qed.

End Leaves.

Lemma to_markdown_string_leaves (fmt : md.formatter) (config : ConfigurationOptions)
    (fuel : nat) (nodes : list MdBlock) (pid : string) (lvl : Z) :
  Forall (fun node => md_children node = [] /\ plain_fragment node = true) nodes ->
  to_markdown_string fmt config (S fuel) nodes pid lvl
  = Ok (if String.eqb (leaves_text fmt lvl nodes) "" then ∅
        else {[ pid := leaves_text fmt lvl nodes ]}).
Proof.
  intros Hall. rewrite to_markdown_string_S.
  rewrite (assemble_leaves fmt config _ nodes pid lvl ∅ Hall).
  now destruct (String.eqb (leaves_text fmt lvl nodes) "").
Qed.

(** X17: for nodes without children (whose fragment is a string or the
    empty map of a synced block) the pass, which makes no nested call and so
    returns within any budget that allows the call itself, returns the
    concatenation, in order, of the layouts of the non-empty fragments,
    toggles and child pages left out, as the one entry of the current
    document; when there is no such text the map has no entry at all. *)
Theorem X17_leaves_concatenate (fmt : md.formatter) (config : ConfigurationOptions)
    (fuel : nat) (nodes : list MdBlock) (pid : string) (lvl : Z) :
  Forall (fun node => md_children node = [] /\ plain_fragment node = true) nodes ->
  to_markdown_string fmt config (S fuel) nodes pid lvl
  = Ok (if String.eqb (leaves_text fmt lvl nodes) "" then ∅
        else {[ pid := leaves_text fmt lvl nodes ]}).
Proof. apply to_markdown_string_leaves. Qed.

Lemma X17_leaves_concatenate_witness :
  to_markdown_string plain_md default_config 1
    [leaf "heading_1" "Title"; leaf "toggle" "More"; leaf "to_do" "[ ] task";
     leaf "paragraph" ""] "parent" 1
  = Ok {[ "parent" := Py.nl +:+ tab +:+ "Title" +:+ Py.nl +:+ Py.nl
                      +:+ tab +:+ "[ ] task" +:+ Py.nl ]}.
Proof.
  rewrite (X17_leaves_concatenate plain_md default_config).
  - vm_compute. reflexivity.
  - repeat constructor.
Defined.

(** X18: a page converted end to end ([page_to_markdown], then
    [to_markdown_string] on its result) never fails in the assembler, which
    makes no nested call on that result, and has the root document at most:
    its text is the concatenation of the layouts of the page's own blocks, in
    order; what the blocks' children, the toggles and the child pages hold
    does not appear, in either mode. *)
Theorem X18_page_is_its_top_level (fmt : md.formatter) (self : NotionToMarkdown)
    (fuel fuel' : nat) (page_id : string) (total_pages : option Z)
    (tr tr' : list event) (md_blocks : list MdBlock) (pid : string) (lvl : Z) :
  page_to_markdown fmt self fuel page_id total_pages tr = (Ok md_blocks, tr') ->
  to_markdown_string fmt (config self) (S fuel') md_blocks pid lvl
  = Ok (if String.eqb (leaves_text fmt lvl md_blocks) "" then ∅
        else {[ pid := leaves_text fmt lvl md_blocks ]}).
Proof.
  intros H. apply to_markdown_string_leaves. revert H.
  unfold page_to_markdown. unfold mbind at 1, M_bind at 1.
  destruct (get_block_children self page_id total_pages tr)
    as [[blocks | e] tr1]; [| discriminate].
  unfold mbind, M_bind.
  destruct (blocks_to_markdown fmt self fuel (Some blocks) None None tr1)
    as [[[nodes same] | e] tr2] eqn:E; [| discriminate].
  intros [= <- <-].
  destruct (blocks_to_markdown_shape fmt self fuel blocks None None
              tr1 tr2 nodes same E) as (new & -> & _ & _ & Hall).
  exact Hall.
Qed.

Lemma X18_page_is_its_top_level_witness :
  page_to_markdown plain_md Sample.site 2 "root" None []
  = (Ok [mkMdBlock "toggle" "t1" (FStr "$x$") [];
         mkMdBlock "divider" "b2" (FStr "---") []],
     [Fetch "root" None; Fetch "t1" None])
  /\ to_markdown_string plain_md (config Sample.site) 1
       [mkMdBlock "toggle" "t1" (FStr "$x$") [];
        mkMdBlock "divider" "b2" (FStr "---") []] "parent" 0
     = Ok {[ "parent" := Py.nl +:+ "---" +:+ Py.nl +:+ Py.nl ]}.
Proof.
  split; [vm_compute; reflexivity |].
  rewrite (X18_page_is_its_top_level plain_md Sample.site 2 0 "root" None []
             [Fetch "root" None; Fetch "t1" None]).
  - vm_compute. reflexivity.
  - vm_compute. reflexivity.
Defined.

(** ** String fragments *)

Section StringTrees.

Context (fmt : md.formatter) (config : ConfigurationOptions).

Lemma nesting_children (ty bid : string) (parent : Fragment)
    (children : list MdBlock) :
  children <> [] ->
  (nesting_of children < nesting (mkMdBlock ty bid parent children))%nat.
Proof.
  cbn [nesting]. unfold nesting_of.
  induction children as [| c cs IH]; [congruence |]. intros _.
  cbn [foldr]. destruct cs as [| c' cs']; [cbn [foldr]; lia |].
  specialize (IH ltac:(discriminate)). lia.
Qed.

Lemma own_fragment_returns (block : MdBlock) (pid : string) (lvl : Z)
    (md_output : gmap string string) :
  str_fragment block = true ->
  exists m1, own_fragment fmt block pid lvl md_output = Ok m1.
Proof.
  unfold own_fragment, str_fragment.
  destruct (md_parent block) as [text | m]; [| discriminate]. intros _.
  cbn [as_str mbind result_bind].
  destruct (_ && _); [| now eexists]. destruct (negb _); now eexists.
Qed.

Lemma children_phase_returns (block : MdBlock)
    (recur : string -> Z -> result (gmap string string)) (pid : string) (lvl : Z)
    (md_output : gmap string string) :
  str_fragment block = true ->
  (md_children block <> [] -> forall pid' lvl', exists r, recur pid' lvl' = Ok r) ->
  exists r, children_phase fmt config block recur pid lvl md_output = Ok r.
Proof.
  unfold str_fragment. intros Hs Hrec. unfold children_phase.
  destruct (md_parent block) as [text | m]; [| discriminate]. cbn [as_str].
  destruct (md_children block) as [| c cs]; [now eexists |].
  specialize (Hrec ltac:(discriminate)).
  repeat match goal with
         | |- context [if ?c then _ else _] => destruct c
         end;
    cbn [mbind result_bind];
    try match goal with
        | |- context [recur ?p ?l] => destruct (Hrec p l) as [md_str ->]
        end;
    cbn [mbind result_bind];
    try destruct (md_str !! text);
    try destruct (pick_entry pid md_str);
    now eexists.
Qed.

(** With string fragments the one error of a step is an error of a nested
    call. *)
Lemma children_phase_error (block : MdBlock)
    (recur : string -> Z -> result (gmap string string)) (pid : string) (lvl : Z)
    (md_output : gmap string string) (e : exn) :
  str_fragment block = true ->
  children_phase fmt config block recur pid lvl md_output = Raise e ->
  exists pid' lvl', recur pid' lvl' = Raise e.
Proof.
  unfold str_fragment. intros Hs. unfold children_phase.
  destruct (md_parent block) as [text | m]; [| discriminate]. cbn [as_str].
  destruct (md_children block) as [| c cs]; [discriminate |].
  repeat match goal with
         | |- context [if ?c then _ else _] => destruct c
         end;
    cbn [mbind result_bind]; try discriminate;
    match goal with
    | |- context [recur ?p ?l] =>
        destruct (recur p l) as [md_str |] eqn:E; cbn [mbind result_bind];
        [try destruct (md_str !! text); try destruct (pick_entry pid md_str);
         discriminate
        | intros [= <-]; now exists p, l]
    end.
Qed.

Lemma to_markdown_string_returns (fuel : nat) :
  forall md_blocks pid lvl,
    forallb (every_node str_fragment) md_blocks = true ->
    (nesting_of md_blocks < fuel)%nat ->
    exists r, to_markdown_string fmt config fuel md_blocks pid lvl = Ok r.
Proof.
  induction fuel as [| fuel IH]; intros md_blocks pid lvl Hstr Hfuel; [lia |].
  rewrite to_markdown_string_S. generalize (∅ : gmap string string).
  induction md_blocks as [| b rest IHrest]; intros md_output; [now eexists |].
  cbn [forallb] in Hstr. apply andb_prop in Hstr as [Hb Hrest].
  unfold nesting_of in Hfuel. cbn [foldr] in Hfuel. fold (nesting_of rest) in Hfuel.
  cbn [assemble_from]. unfold process_block.
  destruct b as [ty bid parent children]. cbn [every_node] in Hb.
  apply andb_prop in Hb as [Hs Hch].
  destruct (own_fragment_returns _ pid lvl md_output Hs) as [m1 ->].
  cbn [mbind result_bind md_children].
  destruct (children_phase_returns (mkMdBlock ty bid parent children)
              (to_markdown_string fmt config fuel children) pid lvl m1 Hs)
    as [r1 ->].
  - cbn [md_children]. intros Hne pid' lvl'. apply IH; [exact Hch |].
    pose proof (nesting_children ty bid parent children Hne). lia.
  - apply IHrest; [exact Hrest | lia].
Qed.

Lemma to_markdown_string_error (fuel : nat) :
  forall md_blocks pid lvl e,
    forallb (every_node str_fragment) md_blocks = true ->
    to_markdown_string fmt config fuel md_blocks pid lvl = Raise e ->
    e = RecursionError.
Proof.
  induction fuel as [| fuel IH]; intros md_blocks pid lvl e Hstr;
    [now intros [= <-] |].
  rewrite to_markdown_string_S. generalize (∅ : gmap string string).
  induction md_blocks as [| b rest IHrest]; intros md_output; [discriminate |].
  cbn [forallb] in Hstr. apply andb_prop in Hstr as [Hb Hrest].
  cbn [assemble_from]. unfold process_block.
  destruct b as [ty bid parent children]. cbn [every_node] in Hb.
  apply andb_prop in Hb as [Hs Hch].
  destruct (own_fragment_returns _ pid lvl md_output Hs) as [m1 ->].
  cbn [mbind result_bind md_children].
  destruct (children_phase fmt config _ _ pid lvl m1) as [r1 | e1] eqn:E.
  - now apply IHrest.
  - intros [= <-].
    destruct (children_phase_error _ _ _ _ _ _ Hs E) as (pid' & lvl' & Herr).
    exact (IH _ _ _ _ Hch Herr).
Qed.

End StringTrees.

(** X19: on a tree whose fragments are all strings the assembler returns a
    map, for every document id and every nesting level and in either mode,
    within every budget that exceeds the nested calls the tree needs; and
    whatever the budget, the one error it can raise on such a tree is the
    [RecursionError] of a tree nested deeper than the budget allows. *)
Theorem X19_assembler_returns (fmt : md.formatter) (config : ConfigurationOptions)
    (md_blocks : list MdBlock) (pid : string) (lvl : Z) :
  forallb (every_node str_fragment) md_blocks = true ->
  (forall fuel, (nesting_of md_blocks < fuel)%nat ->
                exists r, to_markdown_string fmt config fuel md_blocks pid lvl = Ok r)
  /\ (forall fuel e,
        to_markdown_string fmt config fuel md_blocks pid lvl = Raise e ->
        e = RecursionError).
Proof.
  intros Hstr. split.
  - intros fuel Hfuel. now apply to_markdown_string_returns.
  - intros fuel e. now apply to_markdown_string_error.
Qed.

Lemma X19_assembler_returns_witness :
  exists r,
    to_markdown_string plain_md split_config 3
      [Sample.item_with_page;
       mkMdBlock "toggle" "t" (FStr "More") [leaf "quote" "q"]] "parent" 0
    = Ok r.
Proof.
  destruct (X19_assembler_returns plain_md split_config
              [Sample.item_with_page;
               mkMdBlock "toggle" "t" (FStr "More") [leaf "quote" "q"]] "parent" 0)
    as [H _].
  - reflexivity.
  - apply H. vm_compute. lia.
Defined.

(** ** The reflow of a quote *)

Section Reflow.

Lemma split_cons (sep : Ascii.ascii) (s : string) :
  exists l ls, Py.split sep s = l :: ls.
Proof.
  induction s as [| c s IH]; [now eexists _, _ |].
  cbn [Py.split]. destruct (Ascii.eqb c sep); [now eexists _, _ |].
  destruct IH as (l & ls & ->). now eexists _, _.
Qed.

Lemma rstrip_head (c : Ascii.ascii) (s : string) :
  Py.isspace c = false -> exists r, Py.rstrip (String c s) = String c r.
Proof.
  intros Hc. cbn [Py.rstrip]. destruct (Py.rstrip s); [| now eexists].
  rewrite Hc. now eexists.
Qed.

End Reflow.

(** X20: the reflow of the quote branch never gives the empty string: for
    every text, the empty one included, the result begins with a quote marker. *)
Theorem X20_reflow_begins_with_marker (text : string) :
  exists rest, format_quote text = ">" +:+ rest.
Proof.
  unfold format_quote.
  destruct (split_cons (Ascii.ascii_of_nat 10) text) as (l & ls & ->).
  cbn [map].
  assert (Hq : exists q, quote_line l = String (Ascii.ascii_of_nat 62) q).
  { unfold quote_line. destruct (Py.nonempty (Py.strip l)); now eexists. }
  destruct Hq as [q ->].
  assert (Hj : exists j, Py.join Py.nl (String (Ascii.ascii_of_nat 62) q :: map quote_line ls)
                         = String (Ascii.ascii_of_nat 62) j).
  { cbn [Py.join]. destruct (map quote_line ls); now eexists. }
  destruct Hj as [j ->]. unfold Py.strip. cbn [Py.lstrip].
  replace (Py.isspace (Ascii.ascii_of_nat 62)) with false by reflexivity.
  destruct (rstrip_head (Ascii.ascii_of_nat 62) j eq_refl) as [r ->]. now exists r.
Qed.

(** ** Code blocks *)

(** X21: the rich text of a code block is never read: the block is rendered
    as the fenced block of the empty text with the declared language (the
    empty string when there is none), whatever its spans are. *)
Theorem X21_code_block_text_dropped (fmt : md.formatter) (self : NotionToMarkdown)
    (block : Block) (payload : Payload) (tr : list event) :
  b_type block = Some "code" ->
  b_payload block = Some payload ->
  (forall f, custom_transformers self !! "code" <> Some (Some f)) ->
  block_to_markdown fmt self block tr
  = (Ok (FStr (md.code_block fmt "" (default "" (p_language payload)))), tr).
Proof.
  intros Hty Hp Hreg.
  rewrite (block_to_markdown_default fmt self block "code" Hty eq_refl Hreg).
  unfold render_default.
  replace (Py.mem "code" TEXT_BLOCK_TYPES) with false by reflexivity.
  replace (String.eqb "code" "code") with true by reflexivity.
  rewrite Hp. reflexivity.
Qed.

Lemma X21_code_block_text_dropped_witness :
  block_to_markdown plain_md bare (block_of_type "code") []
  = (Ok (FStr ("```python" +:+ Py.nl +:+ Py.nl +:+ "```")), []).
Proof.
  apply (X21_code_block_text_dropped plain_md bare (block_of_type "code")
           full_payload []).
  - reflexivity.
  - reflexivity.
  - intros f H. vm_compute in H. discriminate H.
Defined.

(** ** The calls of a conversion *)

Section Trace.

Context (P : event -> Prop).

Lemma emits_ret {A} (a : A) : emits P (mret a).
Proof. intros tr r tr' [= _ <-]. exists []. now rewrite app_nil_r. Qed.

Lemma emits_lift {A} (x : result A) : emits P (lift x).
Proof. intros tr r tr' [= _ <-]. exists []. now rewrite app_nil_r. Qed.

Lemma emits_emit (ev : event) : P ev -> emits P (emit ev).
Proof. intros H tr r tr' [= _ <-]. exists [ev]. split; [reflexivity | now constructor]. Qed.

Lemma emits_bind {A B} (m : M A) (f : A -> M B) :
  emits P m -> (forall a, emits P (f a)) -> emits P (m ≫= f).
Proof.
  intros Hm Hf tr r tr'. unfold mbind, M_bind.
  destruct (m tr) as [[a | e] tr1] eqn:Em.
  - intros H. destruct (Hm _ _ _ Em) as (evs & -> & Hevs).
    destruct (Hf a _ _ _ H) as (evs' & -> & Hevs'). exists (evs ++ evs').
    split; [now rewrite app_assoc | now apply Forall_app].
  - intros [= <- <-]. exact (Hm _ _ _ Em).
Qed.

End Trace.

(** One step of a proof about the calls of a computation. *)
Ltac emits_step :=
  repeat first
    [ apply emits_ret | apply emits_lift
    | apply emits_emit; cbn; auto
    | apply emits_bind; [| intros ?] ].

Section BuilderTrace.

Context (fmt : md.formatter) (self : NotionToMarkdown) (total_pages : option Z).

Lemma emits_get_block_children (block_id : string) (n : option Z) :
  n = total_pages \/ n = None ->
  emits (fetches_with total_pages) (get_block_children self block_id n).
Proof. intros H. unfold get_block_children. emits_step. Qed.

Lemma emits_handle_synced_block (block : Block) (depth : Z) :
  emits (fetches_with total_pages) (handle_synced_block fmt self block depth).
Proof.
  unfold handle_synced_block.
  destruct (3 <? depth); [emits_step |].
  destruct (p_synced_from _) as [[[block_id |]] |]; [| emits_step ..].
  destruct (Py.nonempty block_id); [| emits_step].
  apply emits_bind; [apply emits_get_block_children; now right |].
  intros blocks. emits_step.
Qed.

Lemma emits_render_default (block : Block) (ty : string) :
  emits (fetches_with total_pages) (render_default fmt self block ty).
Proof.
  unfold render_default.
  apply emits_bind; [destruct (Py.mem ty TEXT_BLOCK_TYPES); emits_step |].
  intros parsed_data.
  repeat match goal with
         | |- emits _ (if String.eqb ty ?s then _ else _) =>
             destruct (String.eqb ty s)
         end;
    try apply emits_handle_synced_block;
    repeat match goal with
           | |- emits _ (if ?c then _ else _) => destruct c
           end;
    emits_step.
Qed.

Lemma emits_block_to_markdown (block : Block) :
  emits (fetches_with total_pages) (block_to_markdown fmt self block).
Proof.
  unfold block_to_markdown.
  destruct (b_type block) as [ty |]; [| emits_step].
  destruct (negb (Py.mem ty VALID_BLOCK_TYPES)); [emits_step |].
  destruct (custom_transformers self !! ty) as [[transformer |] |];
    try apply emits_render_default.
  apply emits_bind; [emits_step |]. intros _.
  apply emits_bind; [emits_step |]. intros [s | b |]; emits_step.
Qed.

Lemma emits_new_node (block : Block) (ty : string) :
  emits (fetches_with total_pages) (new_node fmt self block ty).
Proof.
  unfold new_node. apply emits_bind; [emits_step |]. intros block_id.
  apply emits_bind; [apply emits_block_to_markdown |]. intros parent. emits_step.
Qed.

Context (recur : option (list Block) -> option Z -> option (list MdBlock)
                 -> M (list MdBlock * bool)).
Context (emits_recur : forall blocks md_blocks,
           emits (fetches_with total_pages) (recur blocks total_pages md_blocks)).

(** What an iteration does after the fetch of the children. *)
Lemma emits_build_tail (block : Block) (ty : string) (md_blocks : list MdBlock)
    (fetched : list Block) :
  emits (fetches_with total_pages)
    (node ← new_node fmt self block ty;
     if negb (bool_decide (is_Some (custom_transformers self !! ty))) then
       '(built, same) ← recur (Some fetched) total_pages (Some (md_children node));
       let children := if (same : bool) then built else md_children node in
       mret (md_blocks ++ [mkMdBlock (md_type node) (md_block_id node)
                                     (md_parent node) children])
     else mret (md_blocks ++ [node])).
Proof.
  apply emits_bind; [apply emits_new_node |]. intros node.
  destruct (negb _); [| emits_step].
  apply emits_bind; [apply emits_recur |]. intros [built same]. emits_step.
Qed.

Lemma emits_build_typed_block (block : Block) (ty : string)
    (md_blocks : list MdBlock) :
  emits (fetches_with total_pages)
    (build_typed_block fmt self recur total_pages block ty md_blocks).
Proof.
  unfold build_typed_block.
  destruct (skipped self ty); [emits_step |].
  destruct (b_has_children block).
  - apply emits_bind; [emits_step |]. intros block_id.
    apply emits_bind; [apply emits_get_block_children; now left |]. intros fetched.
    apply emits_build_tail.
  - apply emits_bind; [apply emits_new_node |]. intros node. emits_step.
Qed.

Lemma emits_build_loop (blocks : list Block) :
  forall md_blocks,
    emits (fetches_with total_pages)
      (build_loop fmt self recur total_pages blocks md_blocks).
Proof.
  induction blocks as [| block rest IH]; intros md_blocks; cbn [build_loop].
  - emits_step.
  - apply emits_bind; [| exact IH].
    unfold build_block. apply emits_bind; [emits_step |]. intros ty.
    apply emits_build_typed_block.
Qed.

(** The first call of an iteration on a block with children is the fetch
    of the children. *)
Lemma build_typed_block_fetch_first (block : Block) (ty target : string)
    (md_blocks : list MdBlock) (tr tr' : list event) (r : result (list MdBlock)) :
  skipped self ty = false ->
  b_has_children block = true ->
  fetch_target block ty = Ok target ->
  build_typed_block fmt self recur total_pages block ty md_blocks tr = (r, tr') ->
  exists evs, tr' = tr ++ Fetch target total_pages :: evs
              /\ Forall (fetches_with total_pages) evs.
Proof.
  intros Hs Hc Ht. unfold build_typed_block. rewrite Hs, Hc, Ht.
  unfold get_block_children.
  unfold mbind at 1 2 3, M_bind at 1 2 3, lift at 1 2, emit.
  cbv beta iota.
  destruct (notion_client self target total_pages) as [fetched | e].
  - intros H.
    destruct (emits_build_tail block ty md_blocks fetched _ _ _ H) as (evs & -> & Hevs).
    exists evs. split; [now rewrite <- app_assoc | exact Hevs].
  - intros [= _ <-]. exists []. split; [reflexivity | constructor].
Qed.

End BuilderTrace.

Lemma emits_blocks_to_markdown (fmt : md.formatter) (self : NotionToMarkdown)
    (total_pages : option Z) (fuel : nat) :
  forall blocks md_blocks,
    emits (fetches_with total_pages)
      (blocks_to_markdown fmt self fuel blocks total_pages md_blocks).
Proof.
  induction fuel as [| fuel IH]; intros blocks md_blocks;
    cbn [blocks_to_markdown]; [apply emits_lift |].
  destruct blocks as [[| block rest] |]; [apply emits_ret | | apply emits_ret].
  apply emits_bind; [apply emits_build_loop; exact IH |]. intros r. apply emits_ret.
Qed.

(** X22: when the first block of a list is not passed over and declares
    children, the first call the tree builder makes is the fetch of those
    children, from the id [fetch_target] gives (the source's id for a
    synced copy, the block's own id otherwise) and with the caller's
    [total_pages]; the block is rendered only after that.  Every later
    fetch, at any depth, carries that same [total_pages], or none when it
    is the fetch made while a synced block is rendered. *)
Theorem X22_children_fetched_first (fmt : md.formatter) (self : NotionToMarkdown)
    (fuel : nat) (block : Block) (rest : list Block) (ty target : string)
    (total_pages : option Z) (md_blocks : option (list MdBlock))
    (tr tr' : list event) (r : result (list MdBlock * bool)) :
  b_type block = Some ty ->
  skipped self ty = false ->
  b_has_children block = true ->
  fetch_target block ty = Ok target ->
  blocks_to_markdown fmt self (S fuel) (Some (block :: rest)) total_pages md_blocks tr
  = (r, tr') ->
  exists evs, tr' = tr ++ Fetch target total_pages :: evs
              /\ Forall (fetches_with total_pages) evs.
Proof.
  intros Hty Hs Hc Ht. cbn [blocks_to_markdown build_loop].
  unfold mbind at 1 2, M_bind at 1 2.
  rewrite (build_block_typed fmt self _ total_pages block ty _ tr Hty).
  destruct (build_typed_block _ _ _ _ _ _ _ tr) as [[nodes | e] tr1] eqn:E.
  - destruct (build_typed_block_fetch_first fmt self total_pages _
                (emits_blocks_to_markdown fmt self total_pages fuel)
                block ty target _ tr tr1 _ Hs Hc Ht E) as (evs & -> & Hevs).
    destruct (build_loop _ _ _ _ rest nodes _) as [[r' | e'] tr2] eqn:E2;
      intros [= _ <-];
      destruct (emits_build_loop fmt self total_pages _
                  (emits_blocks_to_markdown fmt self total_pages fuel)
                  rest nodes _ _ _ E2) as (evs' & -> & Hevs');
      (exists (evs ++ evs'); split;
       [now rewrite <- !app_assoc | now apply Forall_app]).
  - intros [= _ <-].
    exact (build_typed_block_fetch_first fmt self total_pages _
             (emits_blocks_to_markdown fmt self total_pages fuel)
             block ty target _ tr tr1 _ Hs Hc Ht E).
Qed.

Lemma X22_children_fetched_first_witness :
  fetch_target Sample.synced_copy "synced_block" = Ok "S"
  /\ exists evs,
       (blocks_to_markdown plain_md Sample.synced_site 3
          (Some [Sample.synced_copy]) (Some 2) None []).2
       = [] ++ Fetch "S" (Some 2) :: evs
       /\ Forall (fetches_with (Some 2)) evs.
Proof.
  split; [reflexivity |].
  eapply (X22_children_fetched_first plain_md Sample.synced_site 2
            Sample.synced_copy [] "synced_block" "S" (Some 2) None []).
  - reflexivity.
  - reflexivity.
  - reflexivity.
  - reflexivity.
  - apply surjective_pairing.
Defined.

(** X23: converting a page starts with the fetch of the page's own
    children, and [total_pages] bounds that fetch only: every fetch after
    it, at any depth, is made without a bound.  When the first fetch fails
    its error is the result and nothing else is called. *)
Theorem X23_page_fetched_first (fmt : md.formatter) (self : NotionToMarkdown)
    (fuel : nat) (page_id : string) (total_pages : option Z)
    (tr tr' : list event) (r : result (list MdBlock)) :
  page_to_markdown fmt self fuel page_id total_pages tr = (r, tr') ->
  (exists evs, tr' = tr ++ Fetch page_id total_pages :: evs
               /\ Forall (fetches_with None) evs)
  /\ (forall e, notion_client self page_id total_pages = Raise e ->
        r = Raise e /\ tr' = tr ++ [Fetch page_id total_pages]).
Proof.
  unfold page_to_markdown, get_block_children.
  unfold mbind at 1 2 3, M_bind at 1 2 3, emit, lift. cbv beta iota.
  destruct (notion_client self page_id total_pages) as [blocks | e0].
  - destruct (blocks_to_markdown _ _ _ _ _ _ _) as [[[nodes same] | e1] tr1] eqn:E;
      intros [= <- <-];
      destruct (emits_blocks_to_markdown fmt self None fuel _ _ _ _ _ E)
        as (evs & -> & Hevs);
      (split; [exists evs; split; [now rewrite <- app_assoc | exact Hevs]
              | intros e; discriminate]).
  - intros [= <- <-].
    split; [exists []; split; [reflexivity | constructor] |]. now intros e [= ->].
Qed.

Lemma X23_page_fetched_first_witness :
  page_to_markdown plain_md Sample.site 3 "root" (Some 1) []
  = (Ok [mkMdBlock "toggle" "t1" (FStr "$x$") [];
         mkMdBlock "divider" "b2" (FStr "---") []],
     [Fetch "root" (Some 1); Fetch "t1" None])
  /\ exists evs, [Fetch "root" (Some 1); Fetch "t1" None]
                 = [] ++ Fetch "root" (Some 1) :: evs
                 /\ Forall (fetches_with None) evs.
Proof.
  split; [vm_compute; reflexivity |].
  apply (X23_page_fetched_first plain_md Sample.site 3 "root" (Some 1) []
           [Fetch "root" (Some 1); Fetch "t1" None]
           (Ok [mkMdBlock "toggle" "t1" (FStr "$x$") [];
                mkMdBlock "divider" "b2" (FStr "---") []])).
  vm_compute. reflexivity.
Defined.
